(** * The spaCy transformer-pipeline notebook, as a Rocq model

    Source: [src/transformer_example.ipynb].  The notebook is a straight-line
    script of eight code cells.  The first one loads the trained pipeline
    [ja_core_news_trf] and applies it to one Japanese sentence; the other
    seven only read the resulting [Doc]: five [for] loops that [print] fields
    of tokens and entity spans, and two [displacy.render] requests.

    The pipeline itself is an external library.  It appears here as a
    parameter: an [installation] says what the two [import] statements of
    the first cell find, and the [spacy_load] of an importable spaCy may
    answer or raise.  Everything the notebook does around it is translated
    statement by statement into a small state-and-exception monad over the
    notebook's global namespace and its visible output.

    The namespace holds the six names the cells assign.  The module names
    [spacy] and [displacy] are bound by the imports of the first cell and are
    not part of it: the cells are modelled for kernels in which the first
    cell has been started at least once with its imports succeeding, which is
    the case wherever one of the six names is bound.  [print] and
    [displacy.render] are output actions that are recorded in the trace and
    do not fail. *)

From Stdlib Require Import String Ascii List ZArith NArith Arith Lia Bool.
From Stdlib Require Import DecimalString.
From Equations Require Import Equations.
Import ListNotations.

Set Implicit Arguments.

(* ===================================================================== *)
(** ** Python strings *)
(* ===================================================================== *)

(** A Python [str] is a sequence of Unicode code points: [len], slicing and
    the character offsets of spaCy spans all count code points, not bytes.
    Literals are written as UTF-8 text and decoded by [u]. *)
Module PyStr.

Definition str := list N.

(** UTF-8 decoder.  [need] is the number of continuation bytes still
    expected and [acc] the bits gathered so far. *)
Fixpoint utf8_decode (bs : list N) (need : nat) (acc : N) : str :=
  match bs with
  | [] => []
  | b :: rest =>
      match need with
      | S n =>
          let acc' := N.lor (N.shiftl acc 6) (N.land b 63) in
          match n with
          | O => acc' :: utf8_decode rest 0 0
          | S _ => utf8_decode rest n acc'
          end
      | O =>
          if N.ltb b 128 then b :: utf8_decode rest 0 0
          else if N.ltb b 224 then utf8_decode rest 1 (N.land b 31)
          else if N.ltb b 240 then utf8_decode rest 2 (N.land b 15)
          else utf8_decode rest 3 (N.land b 7)
      end
  end.

Definition of_bytes (s : string) : str :=
  map N_of_ascii (list_ascii_of_string s).

Definition u (s : string) : str := utf8_decode (of_bytes s) 0 0.

(** [str(n)] for a Python [int]. *)
Definition of_int (z : Z) : str :=
  of_bytes (NilZero.string_of_int (Z.to_int z)).

(** [str(b)] for a Python [bool]. *)
Definition of_bool (b : bool) : str :=
  if b then u "True" else u "False".

(** [sep.join(parts)]. *)
Fixpoint join (sep : str) (parts : list str) : str :=
  match parts with
  | [] => []
  | [p] => p
  | p :: ps => p ++ sep ++ join sep ps
  end.

(** Index normalisation of a slice bound: a negative bound counts from the
    end, and the result is clamped to [0 .. len]. *)
Definition clamp (len : nat) (i : Z) : nat :=
  let i' := if Z.ltb i 0 then Z.add i (Z.of_nat len) else i in
  Nat.min (Z.to_nat i') len.

(** [s[a:b]]: the code points from offset [a] (inclusive) to offset [b]
    (exclusive). *)
Definition slice (s : str) (a b : Z) : str :=
  let lo := clamp (List.length s) a in
  let hi := clamp (List.length s) b in
  firstn (hi - lo) (skipn lo s).

Definition space : str := [32%N].
Definition tab : str := [9%N].

End PyStr.

#[warning="-notation-for-abbreviation"]
Notation str := PyStr.str.
#[warning="-notation-for-abbreviation"]
Notation u := PyStr.u.

(* ===================================================================== *)
(** ** The pipeline's data, as the notebook reads it *)
(* ===================================================================== *)

(** The attributes of a [Token] that the notebook prints.  [morph] is the
    text [print] shows for the token's morphological analysis. *)
Module Token.
Record t := mk {
  text : str;
  lemma_ : str;
  pos_ : str;
  tag_ : str;
  dep_ : str;
  morph : str;
  ent_iob_ : str;
  ent_type_ : str;
  shape_ : str;
  is_alpha : bool;
  is_stop : bool }.
End Token.

(** The attributes of an entity [Span] that the notebook prints. *)
Module Span.
Record t := mk {
  text : str;
  start_char : Z;
  end_char : Z;
  label_ : str }.
End Span.

(** A [Doc]: iterating it yields its tokens, [doc.ents] its entity spans. *)
Module Doc.
Record t := mk {
  tokens : list Token.t;
  ents : list Span.t }.
End Doc.

(** An uncaught Python exception. *)
Inductive exception :=
| NameError (name : string)
| Raised (what : str).

(** A loaded pipeline ([Language] object): calling it on a text returns a
    [Doc] or raises. *)
Definition Language := str -> exception + Doc.t.

(** A value of the [options] dictionary handed to displaCy. *)
Inductive option_value :=
| OptBool (b : bool)
| OptStr (s : str).

Definition options_dict := list (str * option_value).

(* ===================================================================== *)
(** ** Notebook state and visible actions *)
(* ===================================================================== *)

(** The global names the cells assign. *)
Record namespace := mk_namespace {
  v_nlp : option Language;
  v_sentence : option str;
  v_doc : option Doc.t;
  v_options : option options_dict;
  v_token : option Token.t;
  v_ent : option Span.t }.

Definition empty_namespace : namespace :=
  mk_namespace None None None None None None.

(** What a run does towards the outside, in order. *)
Inductive event :=
| Load (name : str)                  (* spacy.load(name) *)
| Annotate (text : str)              (* nlp(text) *)
| Print (line : str)                 (* one print call; the line without its newline *)
| Render (d : Doc.t) (style : str) (opts : options_dict).
                                     (* displacy.render(d, style=..., options=...) *)

Record world := mk_world {
  globals : namespace;
  trace : list event }.

Definition initial_world : world := mk_world empty_namespace [].

(** Computations of the notebook: they transform the world and either
    return a value or stop with an uncaught exception. *)
Definition M (A : Type) : Type := world -> world * (exception + A).

Definition ret {A} (a : A) : M A := fun w => (w, inr a).

Definition raise {A} (e : exception) : M A := fun w => (w, inl e).

Definition bind {A B} (m : M A) (k : A -> M B) : M B :=
  fun w =>
    match m w with
    | (w', inr a) => k a w'
    | (w', inl e) => (w', inl e)
    end.

Declare Scope nb_scope.
Delimit Scope nb_scope with nb.
Notation "x <- m ;; k" := (bind m (fun x => k))
  (at level 61, m at next level, right associativity) : nb_scope.
Notation "m ;; k" := (bind m (fun _ => k))
  (at level 61, right associativity) : nb_scope.
Open Scope nb_scope.

Definition emit (e : event) : M unit :=
  fun w => (mk_world (globals w) (trace w ++ [e]), inr tt).

Definition update (f : namespace -> namespace) : M unit :=
  fun w => (mk_world (f (globals w)) (trace w), inr tt).

(** Reading a global name; an unbound name raises [NameError]. *)
Definition name {A} (proj : namespace -> option A) (id : string) : M A :=
  fun w =>
    match proj (globals w) with
    | Some a => ret a w
    | None => raise (NameError id) w
    end.

Definition set_nlp (x : Language) (g : namespace) : namespace :=
  mk_namespace (Some x) (v_sentence g) (v_doc g) (v_options g) (v_token g) (v_ent g).
Definition set_sentence (x : str) (g : namespace) : namespace :=
  mk_namespace (v_nlp g) (Some x) (v_doc g) (v_options g) (v_token g) (v_ent g).
Definition set_doc (x : Doc.t) (g : namespace) : namespace :=
  mk_namespace (v_nlp g) (v_sentence g) (Some x) (v_options g) (v_token g) (v_ent g).
Definition set_options (x : options_dict) (g : namespace) : namespace :=
  mk_namespace (v_nlp g) (v_sentence g) (v_doc g) (Some x) (v_token g) (v_ent g).
Definition set_token (x : Token.t) (g : namespace) : namespace :=
  mk_namespace (v_nlp g) (v_sentence g) (v_doc g) (v_options g) (Some x) (v_ent g).
Definition set_ent (x : Span.t) (g : namespace) : namespace :=
  mk_namespace (v_nlp g) (v_sentence g) (v_doc g) (v_options g) (v_token g) (Some x).

(** [print(a1, ..., an)]: the arguments' texts joined by single spaces. *)
Definition print (args : list str) : M unit :=
  emit (Print (PyStr.join PyStr.space args)).

(** [displacy.render(d, style=style, options=opts)]. *)
Definition displacy_render (d : Doc.t) (style : str) (opts : options_dict) : M unit :=
  emit (Render d style opts).

(** Calling a loaded pipeline on a text. *)
Definition call (f : Language) (s : str) : M Doc.t :=
  fun w => (mk_world (globals w) (trace w ++ [Annotate s]), f s).

(* ===================================================================== *)
(** ** [for] loops *)
(* ===================================================================== *)

(** Python's iterator protocol over a sequence: the iterator remembers how
    far it has come and hands out one element per [next]; past the end it
    signals [StopIteration] ([None]) and stays exhausted. *)
Record iterator (A : Type) := mk_iterator {
  it_seq : list A;
  it_pos : nat }.

Definition iter {A} (l : list A) : iterator A := mk_iterator l 0.

Definition next {A} (it : iterator A) : option (A * iterator A) :=
  match nth_error (it_seq it) (it_pos it) with
  | Some x => Some (x, mk_iterator (it_seq it) (S (it_pos it)))
  | None => None
  end.

Definition remaining {A} (it : iterator A) : nat :=
  List.length (it_seq it) - it_pos it.

Definition inspect {A} (a : A) : {b : A | a = b} := exist _ a eq_refl.

(** The loop proper: fetch the next element, run the body on it, repeat;
    an exception in the body ends the loop.  The exhausted iterator is
    returned so that its final position can be inspected. *)
Equations for_loop {A} (body : A -> M unit) (it : iterator A) : M (iterator A)
  by wf (remaining it) lt :=
  for_loop body it with inspect (next it) := {
    | exist _ (Some (x, it')) H := bind (body x) (fun _ => for_loop body it');
    | exist _ None _ := ret it }.
Next Obligation.
  unfold next, remaining in *.
  destruct (nth_error (it_seq it) (it_pos it)) eqn:E; [|discriminate].
  match goal with H : Some _ = Some _ |- _ => inversion H; subst end; simpl.
  assert (it_pos it < List.length (it_seq it))
    by (apply nth_error_Some; congruence).
  lia.
Qed.

(** [for x in seq: body]: the loop variable is assigned before each round. *)
Definition for_in {A} (assign : A -> namespace -> namespace) (seq : list A)
    (body : M unit) : M unit :=
  for_loop (fun x => update (assign x) ;; body) (iter seq) ;; ret tt.

(* ===================================================================== *)
(** ** The cells of the notebook *)
(* ===================================================================== *)

(** The name of the trained pipeline and the example sentence, as written
    in the first code cell. *)
Definition model_name : str := u "ja_core_news_trf".

Definition sentence : str :=
  u "株式会社オープンAIは東京都渋谷区に本社を構えています。".

(** The [options] dictionary of the dependency-rendering cell. *)
Definition options : options_dict :=
  [ (u "compact", OptBool true);
    (u "bg", OptStr (u "#09a3d5"));
    (u "color", OptStr (u "white"));
    (u "font", OptStr (u "Source Sans Pro")) ].

(** The header line of the part-of-speech table. *)
Definition pos_header : str :=
  PyStr.join PyStr.tab
    [u "TEXT"; u "LEMMA"; u "POS"; u "TAG"; u "DEP"; u "SHAPE"; u "ALPHA"; u "STOP"].

(** The f-string [f"{token.ent_iob_}-{token.ent_type_}"]. *)
Definition iob_type (t : Token.t) : str :=
  Token.ent_iob_ t ++ u "-" ++ Token.ent_type_ t.

(** The bodies of the five loops.  Each reads the loop variable and prints
    one line. *)
Definition body_token_annotations : M unit :=
  token <- name v_token "token" ;;
  print [Token.text token; iob_type token; Token.tag_ token;
         Token.pos_ token; Token.dep_ token; Token.morph token].

Definition body_tokenization : M unit :=
  token <- name v_token "token" ;;
  print [Token.text token].

Definition body_pos_table : M unit :=
  token <- name v_token "token" ;;
  print [Token.text token; Token.lemma_ token; Token.pos_ token;
         Token.tag_ token; Token.dep_ token; Token.shape_ token;
         PyStr.of_bool (Token.is_alpha token);
         PyStr.of_bool (Token.is_stop token)].

Definition body_entities : M unit :=
  ent <- name v_ent "ent" ;;
  print [Span.text ent; PyStr.of_int (Span.start_char ent);
         PyStr.of_int (Span.end_char ent); Span.label_ ent].

Definition body_entity_tags : M unit :=
  token <- name v_token "token" ;;
  print [Token.text token; iob_type token].

Section Notebook.

(** [spacy.load], the function of the imported module.  Given the name of
    a trained pipeline it returns the pipeline or raises (for instance when
    the model is not installed). *)
Variable spacy_load : str -> exception + Language.

Definition load (name : str) : M Language :=
  fun w => (mk_world (globals w) (trace w ++ [Load name]), spacy_load name).

(** The first cell below its two import statements ([first_cell] is the
    cell with them):
    <<
    nlp = spacy.load("ja_core_news_trf")
    sentence = "..."
    doc = nlp(sentence)
    >> *)
Definition cell_load : M unit :=
  l <- load model_name ;;
  update (set_nlp l) ;;
  update (set_sentence sentence) ;;
  f <- name v_nlp "nlp" ;;
  s <- name v_sentence "sentence" ;;
  d <- call f s ;;
  update (set_doc d).

(** <<
    for token in doc:
        print(token.text, f"{token.ent_iob_}-{token.ent_type_}", token.tag_,
              token.pos_, token.dep_, token.morph)
    >> *)
Definition cell_token_annotations : M unit :=
  d <- name v_doc "doc" ;;
  for_in set_token (Doc.tokens d) body_token_annotations.

(** <<
    for token in doc:
        print(token.text)
    >> *)
Definition cell_tokenization : M unit :=
  d <- name v_doc "doc" ;;
  for_in set_token (Doc.tokens d) body_tokenization.

(** <<
    print("TEXT\tLEMMA\tPOS\tTAG\tDEP\tSHAPE\tALPHA\tSTOP")
    for token in doc:
        print(token.text, token.lemma_, token.pos_, token.tag_, token.dep_,
              token.shape_, token.is_alpha, token.is_stop)
    >> *)
Definition cell_pos_table : M unit :=
  print [pos_header] ;;
  d <- name v_doc "doc" ;;
  for_in set_token (Doc.tokens d) body_pos_table.

(** <<
    options = {"compact": True, "bg": "#09a3d5",
               "color": "white", "font": "Source Sans Pro"}
    displacy.render(doc, style="dep", options=options)
    >>
    The name [displacy] is the module imported by the first cell. *)
Definition cell_render_dep : M unit :=
  update (set_options options) ;;
  d <- name v_doc "doc" ;;
  o <- name v_options "options" ;;
  displacy_render d (u "dep") o.

(** <<
    for ent in doc.ents:
        print(ent.text, ent.start_char, ent.end_char, ent.label_)
    >> *)
Definition cell_entities : M unit :=
  d <- name v_doc "doc" ;;
  for_in set_ent (Doc.ents d) body_entities.

(** <<
    for token in doc:
        print(token.text, f"{token.ent_iob_}-{token.ent_type_}")
    >> *)
Definition cell_entity_tags : M unit :=
  d <- name v_doc "doc" ;;
  for_in set_token (Doc.tokens d) body_entity_tags.

(** <<
    displacy.render(doc, style="ent", options=options)
    >>
    The name [displacy] is the module imported by the first cell. *)
Definition cell_render_ent : M unit :=
  d <- name v_doc "doc" ;;
  o <- name v_options "options" ;;
  displacy_render d (u "ent") o.

(** The seven cells that follow the loading cell, in notebook order. *)
Definition display_cells : list (M unit) :=
  [ cell_token_annotations; cell_tokenization; cell_pos_table;
    cell_render_dep; cell_entities; cell_entity_tags; cell_render_ent ].

(** Running cells top to bottom; the first uncaught exception stops the
    run and the cells below it are not executed. *)
Fixpoint run_cells (cells : list (M unit)) : M unit :=
  match cells with
  | [] => ret tt
  | c :: cs => c ;; run_cells cs
  end.

(** The notebook where both imports of the first cell succeed. *)
Definition notebook : M unit := run_cells (cell_load :: display_cells).

(** One run of the notebook in a fresh kernel, the imports succeeding. *)
Definition run : world * (exception + unit) := notebook initial_world.

Definition run_trace : list event := trace (fst run).
Definition run_result : exception + unit := snd run.

End Notebook.

(** What the two import statements of the first cell find.  [import spacy]
    gives the module, seen here through its function [load], or raises;
    [from spacy import displacy] succeeds ([None]) or raises. *)
Record installation := mk_installation {
  import_spacy : exception + (str -> exception + Language);
  import_displacy : option exception }.

(** [import m]: the module, or the exception the import raises. *)
Definition import_module {A} (found : exception + A) : M A :=
  fun w => (w, found).

(** [from m import x]. *)
Definition from_import (found : option exception) : M unit :=
  fun w =>
    match found with
    | Some e => raise e w
    | None => ret tt w
    end.

(** The first cell in full:
    <<
    import spacy
    from spacy import displacy
    nlp = spacy.load("ja_core_news_trf")
    sentence = "..."
    doc = nlp(sentence)
    >> *)
Definition first_cell (py : installation) : M unit :=
  spacy <- import_module (import_spacy py) ;;
  from_import (import_displacy py) ;;
  cell_load spacy.

(** The whole notebook, and one run of it in a fresh kernel. *)
Definition whole_notebook (py : installation) : M unit :=
  run_cells (first_cell py :: display_cells).

Definition whole_run (py : installation) : world * (exception + unit) :=
  whole_notebook py initial_world.

Definition whole_trace (py : installation) : list event :=
  trace (fst (whole_run py)).
Definition whole_result (py : installation) : exception + unit :=
  snd (whole_run py).

(* ===================================================================== *)
(** ** The run stored in the notebook *)
(* ===================================================================== *)

(** The notebook file keeps, below each code cell, the output of the run its
    author made.  These outputs are the only record of what the external
    pipeline answers for [sentence]; they are transcribed here line by
    line. *)
Module Stored.

(** Output of the token-annotation cell. *)
Definition token_annotations : list str := map u
  [ "株式 B-ORG 名詞-普通名詞-一般 NOUN compound Reading=カブシキ";
    "会社 I-ORG 名詞-普通名詞-一般 NOUN compound Reading=ガイシャ";
    "オープン I-ORG 名詞-普通名詞-サ変形状詞可能 NOUN compound Reading=オープン";
    "AI I-ORG 名詞-普通名詞-一般 NOUN nsubj Reading=エーアイ";
    "は O- 助詞-係助詞 ADP case Reading=ハ";
    "東京 B-GPE 名詞-固有名詞-地名-一般 PROPN compound Reading=トウキョウ";
    "都 I-GPE 名詞-普通名詞-一般 NOUN nmod Reading=ト";
    "渋谷 I-GPE 名詞-固有名詞-地名-一般 PROPN compound Reading=シブヤ";
    "区 I-GPE 接尾辞-名詞的-一般 NOUN obl Reading=ク";
    "に O- 助詞-格助詞 ADP case Reading=ニ";
    "本社 O- 名詞-普通名詞-一般 NOUN obj Reading=ホンシャ";
    "を O- 助詞-格助詞 ADP case Reading=ヲ";
    "構え O- 動詞-一般 VERB ROOT Inflection=下一段-ア行;連用形-一般|Reading=カマエ";
    "て O- 助詞-接続助詞 SCONJ mark Reading=テ";
    "い O- 動詞-非自立可能 VERB fixed Inflection=上一段-ア行;連用形-一般|Reading=イ";
    "ます O- 助動詞 AUX aux Inflection=助動詞-マス;終止形-一般|Reading=マス";
    "。 O- 補助記号-句点 PUNCT punct Reading=。" ]%string.

(** Output of the tokenization cell. *)
Definition tokenization : list str := map u
  [ "株式";
    "会社";
    "オープン";
    "AI";
    "は";
    "東京";
    "都";
    "渋谷";
    "区";
    "に";
    "本社";
    "を";
    "構え";
    "て";
    "い";
    "ます";
    "。" ]%string.

(** Output of the part-of-speech cell, below its tab-separated header. *)
Definition pos_rows : list str := map u
  [ "株式 株式 NOUN 名詞-普通名詞-一般 compound xx True False";
    "会社 会社 NOUN 名詞-普通名詞-一般 compound xx True False";
    "オープン オープン NOUN 名詞-普通名詞-サ変形状詞可能 compound xxxx True False";
    "AI AI NOUN 名詞-普通名詞-一般 nsubj XX True False";
    "は は ADP 助詞-係助詞 case x True True";
    "東京 東京 PROPN 名詞-固有名詞-地名-一般 compound xx True False";
    "都 都 NOUN 名詞-普通名詞-一般 nmod x True False";
    "渋谷 渋谷 PROPN 名詞-固有名詞-地名-一般 compound xx True False";
    "区 区 NOUN 接尾辞-名詞的-一般 obl x True False";
    "に に ADP 助詞-格助詞 case x True True";
    "本社 本社 NOUN 名詞-普通名詞-一般 obj xx True False";
    "を を ADP 助詞-格助詞 case x True True";
    "構え 構える VERB 動詞-一般 ROOT xx True False";
    "て て SCONJ 助詞-接続助詞 mark x True True";
    "い いる VERB 動詞-非自立可能 fixed x True True";
    "ます ます AUX 助動詞 aux xx True True";
    "。 。 PUNCT 補助記号-句点 punct 。 False False" ]%string.

Definition pos_table : list str :=
  (u "TEXT" ++ PyStr.tab ++ u "LEMMA" ++ PyStr.tab ++ u "POS" ++ PyStr.tab
     ++ u "TAG" ++ PyStr.tab ++ u "DEP" ++ PyStr.tab ++ u "SHAPE"
     ++ PyStr.tab ++ u "ALPHA" ++ PyStr.tab ++ u "STOP")
  :: pos_rows.

(** Output of the entity cell. *)
Definition entities : list str := map u
  [ "株式会社オープンAI 0 10 ORG";
    "東京都渋谷区 11 17 GPE" ]%string.

(** Output of the entity-tag cell. *)
Definition entity_tags : list str := map u
  [ "株式 B-ORG";
    "会社 I-ORG";
    "オープン I-ORG";
    "AI I-ORG";
    "は O-";
    "東京 B-GPE";
    "都 I-GPE";
    "渋谷 I-GPE";
    "区 I-GPE";
    "に O-";
    "本社 O-";
    "を O-";
    "構え O-";
    "て O-";
    "い O-";
    "ます O-";
    "。 O-" ]%string.

End Stored.

(** Builds a token from the fields the two token tables of the stored run
    show for it: text, entity tag and type, fine and coarse part of speech,
    dependency label and morphology from the annotation cell; lemma, shape
    and the two flags from the part-of-speech cell. *)
Definition stored_token (text iob type tag pos dep morph lemma shape : string)
    (alpha stop : bool) : Token.t :=
  Token.mk (u text) (u lemma) (u pos) (u tag) (u dep) (u morph) (u iob) (u type)
           (u shape) alpha stop.

Definition recorded_tokens : list Token.t :=
  [ stored_token "株式" "B" "ORG" "名詞-普通名詞-一般" "NOUN" "compound"
      "Reading=カブシキ" "株式" "xx" true false;
    stored_token "会社" "I" "ORG" "名詞-普通名詞-一般" "NOUN" "compound"
      "Reading=ガイシャ" "会社" "xx" true false;
    stored_token "オープン" "I" "ORG" "名詞-普通名詞-サ変形状詞可能" "NOUN" "compound"
      "Reading=オープン" "オープン" "xxxx" true false;
    stored_token "AI" "I" "ORG" "名詞-普通名詞-一般" "NOUN" "nsubj"
      "Reading=エーアイ" "AI" "XX" true false;
    stored_token "は" "O" EmptyString "助詞-係助詞" "ADP" "case"
      "Reading=ハ" "は" "x" true true;
    stored_token "東京" "B" "GPE" "名詞-固有名詞-地名-一般" "PROPN" "compound"
      "Reading=トウキョウ" "東京" "xx" true false;
    stored_token "都" "I" "GPE" "名詞-普通名詞-一般" "NOUN" "nmod"
      "Reading=ト" "都" "x" true false;
    stored_token "渋谷" "I" "GPE" "名詞-固有名詞-地名-一般" "PROPN" "compound"
      "Reading=シブヤ" "渋谷" "xx" true false;
    stored_token "区" "I" "GPE" "接尾辞-名詞的-一般" "NOUN" "obl"
      "Reading=ク" "区" "x" true false;
    stored_token "に" "O" EmptyString "助詞-格助詞" "ADP" "case"
      "Reading=ニ" "に" "x" true true;
    stored_token "本社" "O" EmptyString "名詞-普通名詞-一般" "NOUN" "obj"
      "Reading=ホンシャ" "本社" "xx" true false;
    stored_token "を" "O" EmptyString "助詞-格助詞" "ADP" "case"
      "Reading=ヲ" "を" "x" true true;
    stored_token "構え" "O" EmptyString "動詞-一般" "VERB" "ROOT"
      "Inflection=下一段-ア行;連用形-一般|Reading=カマエ" "構える" "xx" true false;
    stored_token "て" "O" EmptyString "助詞-接続助詞" "SCONJ" "mark"
      "Reading=テ" "て" "x" true true;
    stored_token "い" "O" EmptyString "動詞-非自立可能" "VERB" "fixed"
      "Inflection=上一段-ア行;連用形-一般|Reading=イ" "いる" "x" true true;
    stored_token "ます" "O" EmptyString "助動詞" "AUX" "aux"
      "Inflection=助動詞-マス;終止形-一般|Reading=マス" "ます" "xx" true true;
    stored_token "。" "O" EmptyString "補助記号-句点" "PUNCT" "punct"
      "Reading=。" "。" "。" false false ].

(** The two entity spans of the stored run. *)
Definition recorded_ents : list Span.t :=
  [ Span.mk (u "株式会社オープンAI") 0 10 (u "ORG");
    Span.mk (u "東京都渋谷区") 11 17 (u "GPE") ].

(** The [Doc] of the stored run, as far as the notebook shows it. *)
Definition recorded_doc : Doc.t := Doc.mk recorded_tokens recorded_ents.

(** A pipeline that answers for [sentence] as in the stored run and raises
    on any other text. *)
Definition recorded_pipeline : Language :=
  fun s =>
    if list_eq_dec N.eq_dec s sentence then inr recorded_doc
    else inl (Raised (u "no stored run for this text")).

(** An installation that has the model of the notebook and no other. *)
Definition recorded_load : str -> exception + Language :=
  fun name =>
    if list_eq_dec N.eq_dec name model_name then inr recorded_pipeline
    else inl (Raised (u "OSError: model not found")).

(** An installation without any trained model: [spacy.load] raises. *)
Definition missing_model : str -> exception + Language :=
  fun _ => inl (Raised (u "OSError: model not found")).

(** A pipeline that loads but raises on every text. *)
Definition failing_pipeline : Language :=
  fun _ => inl (Raised (u "RuntimeError: inference failed")).

Definition failing_load : str -> exception + Language :=
  fun _ => inr failing_pipeline.

(** An installation in which spaCy can be imported, with the given
    [load]. *)
Definition installed (spacy_load : str -> exception + Language) : installation :=
  mk_installation (inr spacy_load) None.

(** An installation without spaCy: [import spacy] raises. *)
Definition unimportable : installation :=
  mk_installation (inl (Raised (u "ModuleNotFoundError: No module named spacy")))
                  None.

(** An installation that agrees with [recorded_load] on the model of the
    notebook and differs everywhere else: every other name loads, and the
    loaded pipeline answers every text with the stored document. *)
Definition permissive_load : str -> exception + Language :=
  fun _ => inr (fun _ => inr recorded_doc).

(* ===================================================================== *)
(** ** Observations on a run *)
(* ===================================================================== *)

(** The lines a trace prints, in order. *)
Definition printed (tr : list event) : list str :=
  flat_map (fun e => match e with Print l => [l] | _ => [] end) tr.

(** The rendering requests of a trace, in order. *)
Definition renders (tr : list event) : list (Doc.t * str * options_dict) :=
  flat_map (fun e => match e with Render d s o => [(d, s, o)] | _ => [] end) tr.

(** The texts on which a pipeline was called, in order. *)
Definition annotate_calls (tr : list event) : list str :=
  flat_map (fun e => match e with Annotate s => [s] | _ => [] end) tr.

(** The names a trace asked [spacy.load] for, in order. *)
Definition loads (tr : list event) : list str :=
  flat_map (fun e => match e with Load n => [n] | _ => [] end) tr.

(** What a computation adds to the trace when started in [w]. *)
Definition output_of (c : M unit) (w : world) : list event :=
  skipn (List.length (trace w)) (trace (fst (c w))).

(** The worlds a run of [cells] passes through: the one before each cell
    and the one in which the run ends. *)
Fixpoint states (cells : list (M unit)) (w : world) : list world :=
  match cells with
  | [] => [w]
  | c :: cs =>
      w :: match c w with
           | (w', inr _) => states cs w'
           | (w', inl _) => [w']
           end
  end.

(** Everything the seven display cells show for a document [d], cell by
    cell. *)
Definition shown (d : Doc.t) : list event :=
  map (fun t => Print (Token.text t ++ PyStr.space ++ iob_type t ++ PyStr.space
                       ++ Token.tag_ t ++ PyStr.space ++ Token.pos_ t
                       ++ PyStr.space ++ Token.dep_ t ++ PyStr.space
                       ++ Token.morph t)) (Doc.tokens d)
  ++ map (fun t => Print (Token.text t)) (Doc.tokens d)
  ++ [Print pos_header]
  ++ map (fun t => Print (Token.text t ++ PyStr.space ++ Token.lemma_ t
                       ++ PyStr.space ++ Token.pos_ t ++ PyStr.space
                       ++ Token.tag_ t ++ PyStr.space ++ Token.dep_ t
                       ++ PyStr.space ++ Token.shape_ t ++ PyStr.space
                       ++ PyStr.of_bool (Token.is_alpha t) ++ PyStr.space
                       ++ PyStr.of_bool (Token.is_stop t))) (Doc.tokens d)
  ++ [Render d (u "dep") options]
  ++ map (fun e => Print (Span.text e ++ PyStr.space
                       ++ PyStr.of_int (Span.start_char e) ++ PyStr.space
                       ++ PyStr.of_int (Span.end_char e) ++ PyStr.space
                       ++ Span.label_ e)) (Doc.ents d)
  ++ map (fun t => Print (Token.text t ++ PyStr.space ++ iob_type t))
         (Doc.tokens d)
  ++ [Render d (u "ent") options].

(** A loop over [l] is a single pass when, from any world, it comes back
    normally with its iterator at the end of [l]: every element was handed
    out once, and the iterator is exhausted. *)
Definition single_pass {A} (assign : A -> namespace -> namespace)
    (body : M unit) (l : list A) : Prop :=
  forall w : world, exists w' : world,
    for_loop (fun x => update (assign x) ;; body) (iter l) w
    = (w', inr (mk_iterator l (List.length l))).

(** Two installations answer the notebook alike when loading the model
    fails for both with the same exception, or succeeds for both with
    pipelines that give the same answer for [sentence]. *)
Definition same_answers (l1 l2 : str -> exception + Language) : Prop :=
  match l1 model_name, l2 model_name with
  | inl e1, inl e2 => e1 = e2
  | inr f1, inr f2 => f1 sentence = f2 sentence
  | _, _ => False
  end.

(** A world in which only [doc] is bound. *)
Definition world_with_doc (d : Doc.t) : world :=
  mk_world (set_doc d empty_namespace) [].

(* ===================================================================== *)
(** ** Running cells out of the intended order *)
(* ===================================================================== *)

(** The binding a loop variable has after a loop over [l]: the last element
    of [l], or the binding it had before when [l] is empty. *)
Definition last_bound {A} (l : list A) (old : option A) : option A :=
  match rev l with
  | [] => old
  | x :: _ => Some x
  end.

(** [a] is the beginning of [b]. *)
Definition prefix_of (a b : str) : Prop := exists r : str, b = a ++ r.

(** The display cells with the dependency-rendering cell, the one that
    assigns [options], left out. *)
Definition cells_without_render_dep : list (M unit) :=
  [ cell_token_annotations; cell_tokenization; cell_pos_table;
    cell_entities; cell_entity_tags; cell_render_ent ].

(** A kernel in which an earlier run has left an empty document behind. *)
Definition stale_world : world := world_with_doc (Doc.mk [] []).

(* ===================================================================== *)
(** ** Properties of the loops and cells *)
(* ===================================================================== *)
Lemma for_loop_step {A} (body : A -> M unit) (it : iterator A) :
  for_loop body it =
  match next it with
  | Some (x, it') => bind (body x) (fun _ => for_loop body it')
  | None => ret it
  end.
Proof.
  rewrite for_loop_equation_1. unfold for_loop_clause_1.
  generalize (inspect (next it)). intros [o e].
  destruct o as [[x it']|]; cbn; rewrite e; reflexivity.
Qed.

Lemma next_at {A} (l : list A) (p : nat) :
  next (mk_iterator l p) =
  match nth_error l p with
  | Some x => Some (x, mk_iterator l (S p))
  | None => None
  end.
Proof. reflexivity. Qed.

Lemma skipn_nth_error {A} (l : list A) (p : nat) (x : A) :
  nth_error l p = Some x -> skipn p l = x :: skipn (S p) l.
Proof.
  revert p; induction l as [|a l IH]; intros [|p] H; simpl in *;
    try discriminate.
  - congruence.
  - apply IH in H. rewrite H. reflexivity.
Qed.

(** A loop whose body reads the loop variable back and prints one line. *)
Lemma for_loop_prints {A} (assign : A -> namespace -> namespace)
    (proj : namespace -> option A) (id : string) (args : A -> list str)
    (l : list A) :
  (forall x g, proj (assign x g) = Some x) ->
  forall (n p : nat) (w : world),
    List.length l - p = n -> p <= List.length l ->
    for_loop (fun x => update (assign x) ;; (y <- name proj id ;; print (args y)))
             (mk_iterator l p) w =
    (mk_world (fold_left (fun g x => assign x g) (skipn p l) (globals w))
              (trace w ++ map (fun x => Print (PyStr.join PyStr.space (args x)))
                              (skipn p l)),
     inr (mk_iterator l (List.length l))).
Proof.
  intros Hproj. induction n as [|n IH]; intros p w Hn Hp.
  - assert (p = List.length l) by lia. subst p.
    rewrite for_loop_step, next_at.
    replace (nth_error l (List.length l)) with (@None A)
      by (symmetry; apply nth_error_None; lia).
    rewrite skipn_all. simpl. rewrite app_nil_r. destruct w; reflexivity.
  - rewrite for_loop_step, next_at.
    destruct (nth_error l p) as [x|] eqn:E.
    2:{ apply nth_error_None in E. lia. }
    rewrite (skipn_nth_error _ _ E).
    unfold bind at 1. unfold bind at 1. unfold update at 1. cbn [globals trace].
    unfold bind at 1. unfold name at 1. cbn [globals trace]. rewrite Hproj.
    unfold ret, print, emit. cbn [globals trace].
    rewrite IH by lia. cbn [globals trace fold_left map].
    rewrite <- app_assoc. reflexivity.
Qed.

Lemma for_in_prints {A} (assign : A -> namespace -> namespace)
    (proj : namespace -> option A) (id : string) (args : A -> list str)
    (l : list A) (w : world) :
  (forall x g, proj (assign x g) = Some x) ->
  for_in assign l (y <- name proj id ;; print (args y)) w =
  (mk_world (fold_left (fun g x => assign x g) l (globals w))
            (trace w ++ map (fun x => Print (PyStr.join PyStr.space (args x))) l),
   inr tt).
Proof.
  intros Hproj. unfold for_in, iter. unfold bind at 1.
  rewrite (for_loop_prints assign proj id args l Hproj (n := List.length l))
    by lia.
  reflexivity.
Qed.

(** Assigning loop variables leaves the other names alone. *)
Lemma fold_set_token_frame (l : list Token.t) (g : namespace) :
  let g' := fold_left (fun g x => set_token x g) l g in
  v_nlp g' = v_nlp g /\ v_sentence g' = v_sentence g /\ v_doc g' = v_doc g
  /\ v_options g' = v_options g /\ v_ent g' = v_ent g.
Proof.
  revert g; induction l as [|t l IH]; intros g; simpl.
  - repeat split.
  - specialize (IH (set_token t g)). simpl in IH. exact IH.
Qed.

Lemma fold_set_ent_frame (l : list Span.t) (g : namespace) :
  let g' := fold_left (fun g x => set_ent x g) l g in
  v_nlp g' = v_nlp g /\ v_sentence g' = v_sentence g /\ v_doc g' = v_doc g
  /\ v_options g' = v_options g /\ v_token g' = v_token g.
Proof.
  revert g; induction l as [|t l IH]; intros g; simpl.
  - repeat split.
  - specialize (IH (set_ent t g)). simpl in IH. exact IH.
Qed.

Lemma output_of_app (c : M unit) (w : world) (evs : list event) :
  trace (fst (c w)) = trace w ++ evs -> output_of c w = evs.
Proof.
  intros H. unfold output_of. rewrite H.
  rewrite skipn_app, skipn_all, Nat.sub_diag. reflexivity.
Qed.

Ltac read_doc H :=
  unfold bind at 1; unfold name at 1; cbn [globals trace]; rewrite H;
  unfold ret at 1; cbv beta iota.

Lemma cell_token_annotations_run (w : world) (d : Doc.t) :
  v_doc (globals w) = Some d ->
  cell_token_annotations w =
  (mk_world (fold_left (fun g x => set_token x g) (Doc.tokens d) (globals w))
            (trace w ++ map (fun t => Print (Token.text t ++ PyStr.space
                  ++ iob_type t ++ PyStr.space ++ Token.tag_ t ++ PyStr.space
                  ++ Token.pos_ t ++ PyStr.space ++ Token.dep_ t ++ PyStr.space
                  ++ Token.morph t)) (Doc.tokens d)),
   inr tt).
Proof.
  intros H. unfold cell_token_annotations. read_doc H.
  unfold body_token_annotations.
  rewrite (for_in_prints set_token v_token "token"
             (fun token => [Token.text token; iob_type token; Token.tag_ token;
                            Token.pos_ token; Token.dep_ token; Token.morph token]))
    by reflexivity.
  reflexivity.
Qed.

Lemma cell_tokenization_run (w : world) (d : Doc.t) :
  v_doc (globals w) = Some d ->
  cell_tokenization w =
  (mk_world (fold_left (fun g x => set_token x g) (Doc.tokens d) (globals w))
            (trace w ++ map (fun t => Print (Token.text t)) (Doc.tokens d)),
   inr tt).
Proof.
  intros H. unfold cell_tokenization. read_doc H.
  unfold body_tokenization.
  rewrite (for_in_prints set_token v_token "token"
             (fun token => [Token.text token])) by reflexivity.
  reflexivity.
Qed.

Lemma cell_pos_table_run (w : world) (d : Doc.t) :
  v_doc (globals w) = Some d ->
  cell_pos_table w =
  (mk_world (fold_left (fun g x => set_token x g) (Doc.tokens d) (globals w))
            (trace w ++ Print pos_header ::
               map (fun t => Print (Token.text t ++ PyStr.space ++ Token.lemma_ t
                  ++ PyStr.space ++ Token.pos_ t ++ PyStr.space
                  ++ Token.tag_ t ++ PyStr.space ++ Token.dep_ t
                  ++ PyStr.space ++ Token.shape_ t ++ PyStr.space
                  ++ PyStr.of_bool (Token.is_alpha t) ++ PyStr.space
                  ++ PyStr.of_bool (Token.is_stop t))) (Doc.tokens d)),
   inr tt).
Proof.
  intros H. unfold cell_pos_table.
  unfold bind at 1. unfold print at 1, emit at 1. cbn [globals trace].
  read_doc H. unfold body_pos_table.
  rewrite (for_in_prints set_token v_token "token"
             (fun token => [Token.text token; Token.lemma_ token; Token.pos_ token;
                  Token.tag_ token; Token.dep_ token; Token.shape_ token;
                  PyStr.of_bool (Token.is_alpha token);
                  PyStr.of_bool (Token.is_stop token)])) by reflexivity.
  cbn [globals trace]. rewrite <- app_assoc. reflexivity.
Qed.

Lemma cell_entities_run (w : world) (d : Doc.t) :
  v_doc (globals w) = Some d ->
  cell_entities w =
  (mk_world (fold_left (fun g x => set_ent x g) (Doc.ents d) (globals w))
            (trace w ++ map (fun e => Print (Span.text e ++ PyStr.space
                  ++ PyStr.of_int (Span.start_char e) ++ PyStr.space
                  ++ PyStr.of_int (Span.end_char e) ++ PyStr.space
                  ++ Span.label_ e)) (Doc.ents d)),
   inr tt).
Proof.
  intros H. unfold cell_entities. read_doc H.
  unfold body_entities.
  rewrite (for_in_prints set_ent v_ent "ent"
             (fun ent => [Span.text ent; PyStr.of_int (Span.start_char ent);
                  PyStr.of_int (Span.end_char ent); Span.label_ ent]))
    by reflexivity.
  reflexivity.
Qed.

Lemma cell_entity_tags_run (w : world) (d : Doc.t) :
  v_doc (globals w) = Some d ->
  cell_entity_tags w =
  (mk_world (fold_left (fun g x => set_token x g) (Doc.tokens d) (globals w))
            (trace w ++ map (fun t => Print (Token.text t ++ PyStr.space
                  ++ iob_type t)) (Doc.tokens d)),
   inr tt).
Proof.
  intros H. unfold cell_entity_tags. read_doc H.
  unfold body_entity_tags.
  rewrite (for_in_prints set_token v_token "token"
             (fun token => [Token.text token; iob_type token])) by reflexivity.
  reflexivity.
Qed.

Lemma cell_render_dep_run (w : world) (d : Doc.t) :
  v_doc (globals w) = Some d ->
  cell_render_dep w =
  (mk_world (set_options options (globals w))
            (trace w ++ [Render d (u "dep") options]),
   inr tt).
Proof.
  intros H.
  unfold cell_render_dep, bind, update, name, ret, displacy_render, emit.
  cbn [globals trace set_options v_doc v_options]. rewrite H. reflexivity.
Qed.

Lemma cell_render_ent_run (w : world) (d : Doc.t) (o : options_dict) :
  v_doc (globals w) = Some d -> v_options (globals w) = Some o ->
  cell_render_ent w =
  (mk_world (globals w) (trace w ++ [Render d (u "ent") o]), inr tt).
Proof.
  intros H Ho. unfold cell_render_ent, bind, name, ret, displacy_render, emit.
  rewrite H. cbn [globals]. rewrite Ho. reflexivity.
Qed.

(** The seven display cells, run one after the other from a world in which
    [doc] is bound. *)
Lemma display_cells_run (w : world) (d : Doc.t) :
  v_doc (globals w) = Some d ->
  exists w' : world,
    run_cells display_cells w = (w', inr tt)
    /\ trace w' = trace w ++ shown d
    /\ v_doc (globals w') = Some d.
Proof.
  intros H. unfold display_cells, run_cells.
  unfold bind at 1. rewrite (cell_token_annotations_run w H).
  set (w1 := mk_world _ _).
  assert (H1 : v_doc (globals w1) = Some d)
    by (unfold w1; cbn [globals];
        rewrite (proj1 (proj2 (proj2 (fold_set_token_frame _ _)))); exact H).
  unfold bind at 1. rewrite (cell_tokenization_run w1 H1).
  set (w2 := mk_world _ _).
  assert (H2 : v_doc (globals w2) = Some d)
    by (unfold w2; cbn [globals];
        rewrite (proj1 (proj2 (proj2 (fold_set_token_frame _ _)))); exact H1).
  unfold bind at 1. rewrite (cell_pos_table_run w2 H2).
  set (w3 := mk_world _ _).
  assert (H3 : v_doc (globals w3) = Some d)
    by (unfold w3; cbn [globals];
        rewrite (proj1 (proj2 (proj2 (fold_set_token_frame _ _)))); exact H2).
  unfold bind at 1. rewrite (cell_render_dep_run w3 H3).
  set (w4 := mk_world _ _).
  assert (H4 : v_doc (globals w4) = Some d) by exact H3.
  assert (O4 : v_options (globals w4) = Some options) by reflexivity.
  unfold bind at 1. rewrite (cell_entities_run w4 H4).
  set (w5 := mk_world _ _).
  assert (H5 : v_doc (globals w5) = Some d)
    by (unfold w5; cbn [globals];
        rewrite (proj1 (proj2 (proj2 (fold_set_ent_frame _ _)))); exact H4).
  assert (O5 : v_options (globals w5) = Some options)
    by (unfold w5; cbn [globals];
        rewrite (proj1 (proj2 (proj2 (proj2 (fold_set_ent_frame _ _))))); exact O4).
  unfold bind at 1. rewrite (cell_entity_tags_run w5 H5).
  set (w6 := mk_world _ _).
  assert (H6 : v_doc (globals w6) = Some d)
    by (unfold w6; cbn [globals];
        rewrite (proj1 (proj2 (proj2 (fold_set_token_frame _ _)))); exact H5).
  assert (O6 : v_options (globals w6) = Some options)
    by (unfold w6; cbn [globals];
        rewrite (proj1 (proj2 (proj2 (proj2 (fold_set_token_frame _ _))))); exact O5).
  unfold bind at 1. rewrite (cell_render_ent_run w6 H6 O6).
  unfold ret. eexists. split; [reflexivity|]. split; [|exact H6].
  cbn [trace]. unfold w6, w5, w4, w3, w2, w1. cbn [trace]. unfold shown.
  repeat rewrite <- app_assoc. reflexivity.
Qed.

Section Loading.

Variable spacy_load : str -> exception + Language.

Lemma cell_load_missing (w : world) (e : exception) :
  spacy_load model_name = inl e ->
  cell_load spacy_load w =
  (mk_world (globals w) (trace w ++ [Load model_name]), inl e).
Proof.
  intros H. unfold cell_load, bind, load. rewrite H. reflexivity.
Qed.

Lemma cell_load_raises (w : world) (f : Language) (e : exception) :
  spacy_load model_name = inr f -> f sentence = inl e ->
  cell_load spacy_load w =
  (mk_world (set_sentence sentence (set_nlp f (globals w)))
            (trace w ++ [Load model_name; Annotate sentence]), inl e).
Proof.
  intros H He. unfold cell_load, bind, load, update, name, ret, call.
  rewrite H. cbn [globals trace set_sentence set_nlp v_nlp v_sentence].
  rewrite He, <- app_assoc. reflexivity.
Qed.

Lemma cell_load_returns (w : world) (f : Language) (d : Doc.t) :
  spacy_load model_name = inr f -> f sentence = inr d ->
  cell_load spacy_load w =
  (mk_world (set_doc d (set_sentence sentence (set_nlp f (globals w))))
            (trace w ++ [Load model_name; Annotate sentence]), inr tt).
Proof.
  intros H Hd. unfold cell_load, bind, load, update, name, ret, call.
  rewrite H. cbn [globals trace set_sentence set_nlp v_nlp v_sentence].
  rewrite Hd, <- app_assoc. reflexivity.
Qed.

(** The three ways a run of the notebook can go. *)
Lemma run_missing (e : exception) :
  spacy_load model_name = inl e ->
  run_trace spacy_load = [Load model_name] /\ run_result spacy_load = inl e.
Proof.
  intros H. unfold run_trace, run_result.
  replace (run spacy_load)
    with (mk_world (globals initial_world) ([] ++ [Load model_name]),
          @inl exception unit e).
  - split; reflexivity.
  - unfold run, notebook. cbn [run_cells]. unfold bind at 1.
    rewrite (cell_load_missing initial_world H). reflexivity.
Qed.

Lemma run_raises (f : Language) (e : exception) :
  spacy_load model_name = inr f -> f sentence = inl e ->
  run_trace spacy_load = [Load model_name; Annotate sentence]
  /\ run_result spacy_load = inl e.
Proof.
  intros H He. unfold run_trace, run_result.
  replace (run spacy_load)
    with (mk_world (set_sentence sentence (set_nlp f (globals initial_world)))
                   ([] ++ [Load model_name; Annotate sentence]),
          @inl exception unit e).
  - split; reflexivity.
  - unfold run, notebook. cbn [run_cells]. unfold bind at 1.
    rewrite (cell_load_raises initial_world H He). reflexivity.
Qed.

Lemma run_returns (f : Language) (d : Doc.t) :
  spacy_load model_name = inr f -> f sentence = inr d ->
  run_trace spacy_load = Load model_name :: Annotate sentence :: shown d
  /\ run_result spacy_load = inr tt.
Proof.
  intros H Hd.
  set (w := mk_world (set_doc d (set_sentence sentence
                                   (set_nlp f (globals initial_world))))
                     ([] ++ [Load model_name; Annotate sentence])).
  destruct (display_cells_run w (d := d) eq_refl) as (w' & R & T & _).
  unfold run_trace, run_result.
  replace (run spacy_load) with (w', @inr exception unit tt).
  - cbn [fst snd]. split; [|reflexivity]. rewrite T. reflexivity.
  - unfold run, notebook.
    change (run_cells (cell_load spacy_load :: display_cells))
      with (cell_load spacy_load ;; run_cells display_cells).
    unfold bind at 1.
    rewrite (cell_load_returns initial_world H Hd). fold w.
    symmetry. exact R.
Qed.

End Loading.

(** Observations on printed lines. *)
Lemma printed_prints {A} (f : A -> str) (l : list A) :
  printed (map (fun x => Print (f x)) l) = map f l.
Proof. induction l as [|x l IH]; simpl; [|rewrite IH]; reflexivity. Qed.

Lemma renders_prints {A} (f : A -> str) (l : list A) :
  renders (map (fun x => Print (f x)) l) = [].
Proof. induction l as [|x l IH]; simpl; [reflexivity|exact IH]. Qed.

Lemma annotate_calls_prints {A} (f : A -> str) (l : list A) :
  annotate_calls (map (fun x => Print (f x)) l) = [].
Proof. induction l as [|x l IH]; simpl; [reflexivity|exact IH]. Qed.

Lemma loads_prints {A} (f : A -> str) (l : list A) :
  loads (map (fun x => Print (f x)) l) = [].
Proof. induction l as [|x l IH]; simpl; [reflexivity|exact IH]. Qed.

Lemma loads_shown (d : Doc.t) : loads (shown d) = [].
Proof.
  unfold shown, loads. repeat rewrite flat_map_app.
  fold loads. repeat rewrite loads_prints. reflexivity.
Qed.

Lemma renders_shown (d : Doc.t) :
  renders (shown d) = [(d, u "dep", options); (d, u "ent", options)].
Proof.
  unfold shown, renders. repeat rewrite flat_map_app.
  repeat rewrite (renders_prints (A := Token.t)).
  fold renders. repeat rewrite renders_prints. reflexivity.
Qed.

Lemma annotate_calls_shown (d : Doc.t) : annotate_calls (shown d) = [].
Proof.
  unfold shown, annotate_calls. repeat rewrite flat_map_app.
  fold annotate_calls. repeat rewrite annotate_calls_prints. reflexivity.
Qed.

(** A pipeline that loads and then raises: the run ends in the call. *)
Lemma failing_pipeline_run :
  run_trace failing_load = [Load model_name; Annotate sentence]
  /\ run_result failing_load
     = inl (Raised (u "RuntimeError: inference failed")).
Proof. apply (run_raises failing_load (f := failing_pipeline)); reflexivity. Qed.

(** The model reproduces the stored run: started against a pipeline that
    answers as recorded, the notebook prints exactly the lines stored in
    the file, cell after cell. *)
Lemma stored_run_reproduced :
  run_result recorded_load = inr tt
  /\ printed (run_trace recorded_load) =
       Stored.token_annotations ++ Stored.tokenization ++ Stored.pos_table
       ++ Stored.entities ++ Stored.entity_tags.
Proof. split; vm_compute; reflexivity. Qed.

(** No display cell rebinds [doc], whatever the world it is started in:
    also when it stops early on an unbound name. *)
Lemma display_cell_frame (c : M unit) (w : world) :
  In c display_cells -> v_doc (globals (fst (c w))) = v_doc (globals w).
Proof.
  intros I.
  destruct (v_doc (globals w)) as [d|] eqn:H.
  - simpl in I.
    destruct I as [<-|[<-|[<-|[<-|[<-|[<-|[<-|[]]]]]]]].
    + rewrite (cell_token_annotations_run w H). cbn [fst globals].
      rewrite (proj1 (proj2 (proj2 (fold_set_token_frame _ _)))). exact H.
    + rewrite (cell_tokenization_run w H). cbn [fst globals].
      rewrite (proj1 (proj2 (proj2 (fold_set_token_frame _ _)))). exact H.
    + rewrite (cell_pos_table_run w H). cbn [fst globals].
      rewrite (proj1 (proj2 (proj2 (fold_set_token_frame _ _)))). exact H.
    + rewrite (cell_render_dep_run w H). exact H.
    + rewrite (cell_entities_run w H). cbn [fst globals].
      rewrite (proj1 (proj2 (proj2 (fold_set_ent_frame _ _)))). exact H.
    + rewrite (cell_entity_tags_run w H). cbn [fst globals].
      rewrite (proj1 (proj2 (proj2 (fold_set_token_frame _ _)))). exact H.
    + destruct (v_options (globals w)) as [o|] eqn:O.
      * rewrite (cell_render_ent_run w H O). exact H.
      * unfold cell_render_ent, bind, name, ret, raise.
        rewrite H. cbn [globals]. rewrite O. exact H.
  - simpl in I.
    destruct I as [<-|[<-|[<-|[<-|[<-|[<-|[<-|[]]]]]]]];
      unfold cell_token_annotations, cell_tokenization, cell_pos_table,
        cell_render_dep, cell_entities, cell_entity_tags, cell_render_ent,
        bind, name, ret, raise, print, emit, update;
      cbn [globals trace set_options v_doc]; rewrite H; exact H.
Qed.

(** Where both imports succeed, the first cell is [cell_load] of the
    imported module, and the whole notebook is [notebook]. *)
Lemma first_cell_importable (py : installation)
    (spacy_load : str -> exception + Language) (w : world) :
  import_spacy py = inr spacy_load -> import_displacy py = None ->
  first_cell py w = cell_load spacy_load w.
Proof.
  intros I D. unfold first_cell, bind, import_module, from_import, ret.
  rewrite I, D. reflexivity.
Qed.

Lemma whole_notebook_importable (py : installation)
    (spacy_load : str -> exception + Language) (w : world) :
  import_spacy py = inr spacy_load -> import_displacy py = None ->
  whole_notebook py w = notebook spacy_load w.
Proof.
  intros I D. unfold whole_notebook, notebook. cbn [run_cells].
  unfold bind at 1. rewrite (first_cell_importable py w I D). reflexivity.
Qed.

Lemma whole_run_importable (py : installation)
    (spacy_load : str -> exception + Language) :
  import_spacy py = inr spacy_load -> import_displacy py = None ->
  whole_trace py = run_trace spacy_load
  /\ whole_result py = run_result spacy_load.
Proof.
  intros I D. unfold whole_trace, whole_result, whole_run, run_trace,
    run_result, run.
  rewrite (whole_notebook_importable py initial_world I D).
  split; reflexivity.
Qed.

(** Where an import fails, the first cell stops there and does nothing. *)
Lemma first_cell_unimportable (py : installation) (w : world) (e : exception) :
  (import_spacy py = inl e
   \/ (exists l, import_spacy py = inr l) /\ import_displacy py = Some e) ->
  first_cell py w = (w, inl e).
Proof.
  intros [I | [[l I] D]];
    unfold first_cell, bind, import_module, from_import, raise;
    rewrite I; [|rewrite D]; reflexivity.
Qed.

(* ===================================================================== *)
(** ** The claims *)
(* ===================================================================== *)

(** C1.  The entity-display loop terminates normally and prints, for the
    entity spans of the document in their order, exactly one line each,
    made of the span's text, start offset, end offset and label; it prints
    nothing else, and as many lines as there are spans. *)
Theorem entity_loop_prints_spans (w : world) (d : Doc.t) :
  v_doc (globals w) = Some d ->
  snd (cell_entities w) = inr tt
  /\ output_of cell_entities w =
       map (fun e => Print (Span.text e ++ PyStr.space
                            ++ PyStr.of_int (Span.start_char e) ++ PyStr.space
                            ++ PyStr.of_int (Span.end_char e) ++ PyStr.space
                            ++ Span.label_ e)) (Doc.ents d)
  /\ List.length (output_of cell_entities w) = List.length (Doc.ents d).
Proof.
  intros H. pose proof (cell_entities_run w H) as R.
  assert (O : output_of cell_entities w =
              map (fun e => Print (Span.text e ++ PyStr.space
                            ++ PyStr.of_int (Span.start_char e) ++ PyStr.space
                            ++ PyStr.of_int (Span.end_char e) ++ PyStr.space
                            ++ Span.label_ e)) (Doc.ents d))
    by (apply output_of_app; rewrite R; reflexivity).
  split; [rewrite R; reflexivity|]. split; [exact O|].
  rewrite O. apply length_map.
Qed.

Lemma entity_loop_prints_spans_witness :
  v_doc (globals (world_with_doc recorded_doc)) = Some recorded_doc
  /\ snd (cell_entities (world_with_doc recorded_doc)) = inr tt
  /\ List.length (output_of cell_entities (world_with_doc recorded_doc)) = 2.
Proof.
  split; [reflexivity|].
  destruct (entity_loop_prints_spans (world_with_doc recorded_doc) eq_refl)
    as (R & _ & L).
  split; [exact R | exact L].
Defined.

(** C2, as stated, fails: where spaCy cannot be imported the run stops in
    the first import; no model is requested and no pipeline is called. *)
Lemma nothing_invoked_without_spacy :
  whole_result unimportable
  = inl (Raised (u "ModuleNotFoundError: No module named spacy"))
  /\ loads (whole_trace unimportable) = []
  /\ annotate_calls (whole_trace unimportable) = []
  /\ List.length (loads (whole_trace unimportable)) <> 1
  /\ List.length (annotate_calls (whole_trace unimportable)) <> 1.
Proof. repeat split; vm_compute; discriminate. Qed.

(** C2, as amended.  In a run in which both imports of the first cell
    succeed, [spacy.load] is called exactly once, for the model of the
    notebook.  When the model loads, the loaded pipeline is called exactly
    once, on [sentence]; when it does not, no pipeline is called.  The run
    ends with the exception of the failing step, having shown nothing, or
    it shows what the display cells show for the one document the call
    returned, and nothing else. *)
Theorem capability_invoked_once (py : installation)
    (spacy_load : str -> exception + Language) :
  import_spacy py = inr spacy_load -> import_displacy py = None ->
  loads (whole_trace py) = [model_name]
  /\ match spacy_load model_name with
     | inl e =>
         annotate_calls (whole_trace py) = []
         /\ whole_trace py = [Load model_name]
         /\ whole_result py = inl e
     | inr f =>
         annotate_calls (whole_trace py) = [sentence]
         /\ match f sentence with
            | inl e =>
                whole_trace py = [Load model_name; Annotate sentence]
                /\ whole_result py = inl e
            | inr d =>
                whole_trace py
                = Load model_name :: Annotate sentence :: shown d
                /\ whole_result py = inr tt
            end
     end.
Proof.
  intros I D. destruct (whole_run_importable py I D) as [T R].
  rewrite T, R. clear T R I D py.
  destruct (spacy_load model_name) as [e|f] eqn:L.
  - destruct (run_missing spacy_load L) as [T R]. rewrite T, R.
    repeat split.
  - destruct (f sentence) as [e|d] eqn:C.
    + destruct (run_raises spacy_load L C) as [T R]. rewrite T, R.
      repeat split.
    + destruct (run_returns spacy_load L C) as [T R]. rewrite T, R.
      change (loads (Load model_name :: Annotate sentence :: shown d))
        with (model_name :: loads (shown d)).
      change (annotate_calls (Load model_name :: Annotate sentence :: shown d))
        with (sentence :: annotate_calls (shown d)).
      rewrite loads_shown, annotate_calls_shown. repeat split.
Qed.

Lemma capability_invoked_once_witness :
  import_spacy (installed recorded_load) = inr recorded_load
  /\ import_displacy (installed recorded_load) = None
  /\ loads (whole_trace (installed recorded_load)) = [model_name]
  /\ annotate_calls (whole_trace (installed recorded_load)) = [sentence].
Proof.
  split; [reflexivity|]. split; [reflexivity|].
  pose proof (capability_invoked_once (installed recorded_load)
                eq_refl eq_refl) as P.
  split; [exact (proj1 P)|].
  exact (proj1 (proj2 P)).
Defined.

(** C3.  Each of the four token-display loops goes through the tokens of
    the document once, from the first to the last, comes back normally, and
    prints one line per token in token order (the part-of-speech cell prints
    its header line first).  The iterator of each loop ends exhausted. *)
Theorem token_loops_single_pass (w : world) (d : Doc.t) :
  v_doc (globals w) = Some d ->
  (snd (cell_token_annotations w) = inr tt
   /\ snd (cell_tokenization w) = inr tt
   /\ snd (cell_pos_table w) = inr tt
   /\ snd (cell_entity_tags w) = inr tt)
  /\ output_of cell_token_annotations w =
       map (fun t => Print (Token.text t ++ PyStr.space ++ iob_type t
                            ++ PyStr.space ++ Token.tag_ t ++ PyStr.space
                            ++ Token.pos_ t ++ PyStr.space ++ Token.dep_ t
                            ++ PyStr.space ++ Token.morph t)) (Doc.tokens d)
  /\ output_of cell_tokenization w =
       map (fun t => Print (Token.text t)) (Doc.tokens d)
  /\ output_of cell_pos_table w =
       Print pos_header ::
       map (fun t => Print (Token.text t ++ PyStr.space ++ Token.lemma_ t
                            ++ PyStr.space ++ Token.pos_ t ++ PyStr.space
                            ++ Token.tag_ t ++ PyStr.space ++ Token.dep_ t
                            ++ PyStr.space ++ Token.shape_ t ++ PyStr.space
                            ++ PyStr.of_bool (Token.is_alpha t) ++ PyStr.space
                            ++ PyStr.of_bool (Token.is_stop t))) (Doc.tokens d)
  /\ output_of cell_entity_tags w =
       map (fun t => Print (Token.text t ++ PyStr.space ++ iob_type t))
           (Doc.tokens d)
  /\ (single_pass set_token body_token_annotations (Doc.tokens d)
      /\ single_pass set_token body_tokenization (Doc.tokens d)
      /\ single_pass set_token body_pos_table (Doc.tokens d)
      /\ single_pass set_token body_entity_tags (Doc.tokens d))
  /\ next (mk_iterator (Doc.tokens d) (List.length (Doc.tokens d))) = None.
Proof.
  intros H.
  pose proof (cell_token_annotations_run w H) as R1.
  pose proof (cell_tokenization_run w H) as R2.
  pose proof (cell_pos_table_run w H) as R3.
  pose proof (cell_entity_tags_run w H) as R4.
  split; [rewrite R1, R2, R3, R4; repeat split|].
  split; [apply output_of_app; rewrite R1; reflexivity|].
  split; [apply output_of_app; rewrite R2; reflexivity|].
  split; [apply output_of_app; rewrite R3; reflexivity|].
  split; [apply output_of_app; rewrite R4; reflexivity|].
  split.
  - repeat split; intros w0; eexists; unfold iter;
      [ unfold body_token_annotations
      | unfold body_tokenization
      | unfold body_pos_table
      | unfold body_entity_tags ];
      apply (for_loop_prints set_token v_token "token" _ (Doc.tokens d)
               (fun x g => eq_refl) (n := List.length (Doc.tokens d)));
      lia.
  - rewrite next_at.
    replace (nth_error (Doc.tokens d) (List.length (Doc.tokens d)))
      with (@None Token.t) by (symmetry; apply nth_error_None; lia).
    reflexivity.
Qed.

Lemma token_loops_single_pass_witness :
  v_doc (globals (world_with_doc recorded_doc)) = Some recorded_doc
  /\ printed (output_of cell_tokenization (world_with_doc recorded_doc))
     = Stored.tokenization.
Proof.
  split; [reflexivity|].
  destruct (token_loops_single_pass (world_with_doc recorded_doc) eq_refl)
    as (_ & _ & O & _).
  rewrite O. vm_compute. reflexivity.
Defined.

(** C4.  In a run in which the pipeline returns a document, displaCy is
    asked to render exactly twice: first the dependency view, then the
    entity view, both times for that document and with the same options. *)
Theorem renders_dep_then_ent (spacy_load : str -> exception + Language)
    (f : Language) (d : Doc.t) :
  spacy_load model_name = inr f -> f sentence = inr d ->
  renders (run_trace spacy_load)
  = [(d, u "dep", options); (d, u "ent", options)].
Proof.
  intros L C. destruct (run_returns spacy_load L C) as [T _]. rewrite T.
  change (renders (Load model_name :: Annotate sentence :: shown d))
    with (renders (shown d)).
  apply renders_shown.
Qed.

Lemma renders_dep_then_ent_witness :
  recorded_load model_name = inr recorded_pipeline
  /\ recorded_pipeline sentence = inr recorded_doc
  /\ renders (run_trace recorded_load)
     = [(recorded_doc, u "dep", options); (recorded_doc, u "ent", options)].
Proof.
  split; [reflexivity|]. split; [reflexivity|].
  apply (renders_dep_then_ent recorded_load (f := recorded_pipeline));
    reflexivity.
Defined.

(** C5.  When obtaining the document fails, be it in loading the model or
    in the pipeline call, the exception reaches the top of the run
    unchanged, and the run prints nothing and requests no rendering. *)
Theorem failure_is_fatal (spacy_load : str -> exception + Language)
    (e : exception) :
  (spacy_load model_name = inl e
   \/ exists f, spacy_load model_name = inr f /\ f sentence = inl e) ->
  run_result spacy_load = inl e
  /\ printed (run_trace spacy_load) = []
  /\ renders (run_trace spacy_load) = [].
Proof.
  intros [L | (f & L & C)].
  - destruct (run_missing spacy_load L) as [T R]. rewrite T, R.
    repeat split.
  - destruct (run_raises spacy_load L C) as [T R]. rewrite T, R.
    repeat split.
Qed.

Lemma failure_is_fatal_witness :
  (missing_model model_name = inl (Raised (u "OSError: model not found"))
   \/ exists f, missing_model model_name = inr f
                /\ f sentence = inl (Raised (u "OSError: model not found")))
  /\ run_result missing_model = inl (Raised (u "OSError: model not found"))
  /\ printed (run_trace missing_model) = []
  /\ renders (run_trace missing_model) = [].
Proof.
  split; [left; reflexivity|].
  apply (failure_is_fatal missing_model). left. reflexivity.
Defined.

(** C6.  From a world in which [doc] is bound to [d], as the loading cell
    leaves it: every display cell leaves the binding of [doc] untouched;
    the run passes through eight worlds (before each of the seven cells,
    and at the end), and [doc] is [d] in every one of them; and every
    rendering is requested for [d].  Documents are values here, so a change
    made to the Python object would show as a different value of [doc]. *)
Theorem document_is_read_only (w : world) (d : Doc.t) :
  v_doc (globals w) = Some d ->
  (forall (c : M unit) (w0 : world),
      In c display_cells -> v_doc (globals (fst (c w0))) = v_doc (globals w0))
  /\ List.length (states display_cells w) = 8
  /\ Forall (fun w' => v_doc (globals w') = Some d) (states display_cells w)
  /\ (forall d' s o,
         In (d', s, o) (renders (output_of (run_cells display_cells) w)) ->
         d' = d).
Proof.
  intros H. split; [intros c w0 I; apply display_cell_frame; exact I|].
  assert (S : List.length (states display_cells w) = 8
              /\ Forall (fun w' => v_doc (globals w') = Some d)
                        (states display_cells w)).
  { unfold display_cells. cbn [states].
    rewrite (cell_token_annotations_run w H).
    set (w1 := mk_world _ _).
    assert (H1 : v_doc (globals w1) = Some d)
      by (unfold w1; cbn [globals];
          rewrite (proj1 (proj2 (proj2 (fold_set_token_frame _ _)))); exact H).
    rewrite (cell_tokenization_run w1 H1).
    set (w2 := mk_world _ _).
    assert (H2 : v_doc (globals w2) = Some d)
      by (unfold w2; cbn [globals];
          rewrite (proj1 (proj2 (proj2 (fold_set_token_frame _ _)))); exact H1).
    rewrite (cell_pos_table_run w2 H2).
    set (w3 := mk_world _ _).
    assert (H3 : v_doc (globals w3) = Some d)
      by (unfold w3; cbn [globals];
          rewrite (proj1 (proj2 (proj2 (fold_set_token_frame _ _)))); exact H2).
    rewrite (cell_render_dep_run w3 H3).
    set (w4 := mk_world _ _).
    assert (H4 : v_doc (globals w4) = Some d) by exact H3.
    assert (O4 : v_options (globals w4) = Some options) by reflexivity.
    rewrite (cell_entities_run w4 H4).
    set (w5 := mk_world _ _).
    assert (H5 : v_doc (globals w5) = Some d)
      by (unfold w5; cbn [globals];
          rewrite (proj1 (proj2 (proj2 (fold_set_ent_frame _ _)))); exact H4).
    assert (O5 : v_options (globals w5) = Some options)
      by (unfold w5; cbn [globals];
          rewrite (proj1 (proj2 (proj2 (proj2 (fold_set_ent_frame _ _)))));
          exact O4).
    rewrite (cell_entity_tags_run w5 H5).
    set (w6 := mk_world _ _).
    assert (H6 : v_doc (globals w6) = Some d)
      by (unfold w6; cbn [globals];
          rewrite (proj1 (proj2 (proj2 (fold_set_token_frame _ _)))); exact H5).
    assert (O6 : v_options (globals w6) = Some options)
      by (unfold w6; cbn [globals];
          rewrite (proj1 (proj2 (proj2 (proj2 (fold_set_token_frame _ _)))));
          exact O5).
    rewrite (cell_render_ent_run w6 H6 O6).
    split; [reflexivity|].
    repeat (constructor; [assumption|]). constructor. }
  split; [exact (proj1 S)|]. split; [exact (proj2 S)|].
  destruct (display_cells_run w H) as (w' & R & T & _).
  assert (O : output_of (run_cells display_cells) w = shown d)
    by (apply output_of_app; rewrite R; exact T).
  rewrite O, renders_shown. intros d' s o I.
  simpl in I. destruct I as [E|[E|[]]]; inversion E; reflexivity.
Qed.

Lemma document_is_read_only_witness :
  v_doc (globals (world_with_doc recorded_doc)) = Some recorded_doc
  /\ Forall (fun w' => v_doc (globals w') = Some recorded_doc)
            (states display_cells (world_with_doc recorded_doc)).
Proof.
  split; [reflexivity|].
  exact (proj1 (proj2 (proj2
           (document_is_read_only (world_with_doc recorded_doc) eq_refl)))).
Defined.

(* ===================================================================== *)
(** ** Further properties of the cells *)
(* ===================================================================== *)

Lemma output_of_same (c : M unit) (w : world) :
  trace (fst (c w)) = trace w -> output_of c w = [].
Proof.
  intros H. apply output_of_app. rewrite H, app_nil_r. reflexivity.
Qed.

(** The cells in a world in which [doc] is unbound. *)
Lemma loop_cells_unbound (w : world) :
  v_doc (globals w) = None ->
  cell_token_annotations w = (w, inl (NameError "doc"))
  /\ cell_tokenization w = (w, inl (NameError "doc"))
  /\ cell_entities w = (w, inl (NameError "doc"))
  /\ cell_entity_tags w = (w, inl (NameError "doc"))
  /\ cell_render_ent w = (w, inl (NameError "doc")).
Proof.
  intros H.
  unfold cell_token_annotations, cell_tokenization, cell_entities,
    cell_entity_tags, cell_render_ent, bind, name, raise.
  rewrite H. repeat split.
Qed.

Lemma cell_pos_table_unbound (w : world) :
  v_doc (globals w) = None ->
  cell_pos_table w =
  (mk_world (globals w) (trace w ++ [Print pos_header]), inl (NameError "doc")).
Proof.
  intros H. unfold cell_pos_table, bind, name, raise, print, emit.
  cbn [globals trace]. rewrite H. reflexivity.
Qed.

Lemma cell_render_dep_unbound (w : world) :
  v_doc (globals w) = None ->
  cell_render_dep w =
  (mk_world (set_options options (globals w)) (trace w), inl (NameError "doc")).
Proof.
  intros H. unfold cell_render_dep, bind, name, raise, update.
  cbn [globals trace set_options v_doc]. rewrite H. reflexivity.
Qed.

Lemma cell_render_ent_no_options (w : world) (d : Doc.t) :
  v_doc (globals w) = Some d -> v_options (globals w) = None ->
  cell_render_ent w = (w, inl (NameError "options")).
Proof.
  intros H O. unfold cell_render_ent, bind, name, ret, raise.
  rewrite H. cbn [globals]. rewrite O. reflexivity.
Qed.

(** The loop variable after a loop. *)
Lemma fold_set_token_last (l : list Token.t) (g : namespace) :
  v_token (fold_left (fun g x => set_token x g) l g) = last_bound l (v_token g).
Proof.
  induction l as [|x l IH] using rev_ind.
  - reflexivity.
  - rewrite fold_left_app. unfold last_bound. rewrite rev_app_distr.
    reflexivity.
Qed.

Lemma fold_set_ent_last (l : list Span.t) (g : namespace) :
  v_ent (fold_left (fun g x => set_ent x g) l g) = last_bound l (v_ent g).
Proof.
  induction l as [|x l IH] using rev_ind.
  - reflexivity.
  - rewrite fold_left_app. unfold last_bound. rewrite rev_app_distr.
    reflexivity.
Qed.

Lemma last_bound_twice {A} (l : list A) (old : option A) :
  last_bound l (last_bound l old) = last_bound l old.
Proof. unfold last_bound. destruct (rev l); reflexivity. Qed.

(** The world in which a run of the seven display cells ends. *)
Lemma display_cells_world (w : world) (d : Doc.t) :
  v_doc (globals w) = Some d ->
  exists w' : world,
    run_cells display_cells w = (w', inr tt)
    /\ trace w' = trace w ++ shown d
    /\ v_nlp (globals w') = v_nlp (globals w)
    /\ v_sentence (globals w') = v_sentence (globals w)
    /\ v_doc (globals w') = Some d
    /\ v_options (globals w') = Some options
    /\ v_token (globals w') = last_bound (Doc.tokens d) (v_token (globals w))
    /\ v_ent (globals w') = last_bound (Doc.ents d) (v_ent (globals w)).
Proof.
  intros H. unfold display_cells, run_cells.
  unfold bind at 1. rewrite (cell_token_annotations_run w H).
  set (w1 := mk_world _ _).
  destruct (fold_set_token_frame (Doc.tokens d) (globals w))
    as (N1 & S1 & D1 & O1 & E1).
  pose proof (fold_set_token_last (Doc.tokens d) (globals w)) as T1.
  assert (H1 : v_doc (globals w1) = Some d) by (unfold w1; cbn [globals]; congruence).
  unfold bind at 1. rewrite (cell_tokenization_run w1 H1).
  set (w2 := mk_world _ _).
  destruct (fold_set_token_frame (Doc.tokens d) (globals w1))
    as (N2 & S2 & D2 & O2 & E2).
  pose proof (fold_set_token_last (Doc.tokens d) (globals w1)) as T2.
  assert (H2 : v_doc (globals w2) = Some d) by (unfold w2; cbn [globals]; congruence).
  unfold bind at 1. rewrite (cell_pos_table_run w2 H2).
  set (w3 := mk_world _ _).
  destruct (fold_set_token_frame (Doc.tokens d) (globals w2))
    as (N3 & S3 & D3 & O3 & E3).
  pose proof (fold_set_token_last (Doc.tokens d) (globals w2)) as T3.
  assert (H3 : v_doc (globals w3) = Some d) by (unfold w3; cbn [globals]; congruence).
  unfold bind at 1. rewrite (cell_render_dep_run w3 H3).
  set (w4 := mk_world _ _).
  assert (H4 : v_doc (globals w4) = Some d) by exact H3.
  assert (O4 : v_options (globals w4) = Some options) by reflexivity.
  unfold bind at 1. rewrite (cell_entities_run w4 H4).
  set (w5 := mk_world _ _).
  destruct (fold_set_ent_frame (Doc.ents d) (globals w4))
    as (N5 & S5 & D5 & O5 & K5).
  pose proof (fold_set_ent_last (Doc.ents d) (globals w4)) as E5.
  assert (H5 : v_doc (globals w5) = Some d) by (unfold w5; cbn [globals]; congruence).
  unfold bind at 1. rewrite (cell_entity_tags_run w5 H5).
  set (w6 := mk_world _ _).
  destruct (fold_set_token_frame (Doc.tokens d) (globals w5))
    as (N6 & S6 & D6 & O6 & E6).
  pose proof (fold_set_token_last (Doc.tokens d) (globals w5)) as T6.
  assert (H6 : v_doc (globals w6) = Some d) by (unfold w6; cbn [globals]; congruence).
  assert (P6 : v_options (globals w6) = Some options)
    by (unfold w6; cbn [globals]; rewrite O6; unfold w5; cbn [globals];
        rewrite O5; exact O4).
  unfold bind at 1. rewrite (cell_render_ent_run w6 H6 P6).
  unfold ret. eexists. split; [reflexivity|]. cbn [globals trace].
  split.
  { unfold w6, w5, w4, w3, w2, w1. cbn [trace]. unfold shown.
    repeat rewrite <- app_assoc. reflexivity. }
  unfold w6 in *. cbn [globals] in *.
  unfold w5 in *. cbn [globals] in *.
  unfold w4 in *. cbn [globals set_options v_nlp v_sentence v_token v_ent] in *.
  unfold w3 in *. cbn [globals] in *.
  unfold w2 in *. cbn [globals] in *.
  unfold w1 in *. cbn [globals] in *.
  split; [congruence|]. split; [congruence|]. split; [exact H6|].
  split; [exact P6|]. split.
  - rewrite T6, K5. cbn [set_options v_token]. rewrite T3, T2, T1.
    rewrite !last_bound_twice. reflexivity.
  - rewrite E6, E5. cbn [set_options v_ent]. rewrite E3, E2, E1. reflexivity.
Qed.

Lemma printed_app (a b : list event) :
  printed (a ++ b) = printed a ++ printed b.
Proof. apply flat_map_app. Qed.

Lemma renders_app (a b : list event) :
  renders (a ++ b) = renders a ++ renders b.
Proof. apply flat_map_app. Qed.

Lemma loads_app (a b : list event) : loads (a ++ b) = loads a ++ loads b.
Proof. apply flat_map_app. Qed.

Lemma annotate_calls_app (a b : list event) :
  annotate_calls (a ++ b) = annotate_calls a ++ annotate_calls b.
Proof. apply flat_map_app. Qed.

Lemma printed_length_prints {A} (f : A -> str) (l : list A) :
  List.length (printed (map (fun x => Print (f x)) l)) = List.length l.
Proof. rewrite printed_prints. apply length_map. Qed.

Lemma Forall2_maps {A B C} (R : B -> C -> Prop) (f : A -> B) (g : A -> C)
    (l : list A) :
  (forall x, R (f x) (g x)) -> Forall2 R (map f l) (map g l).
Proof.
  intros H. induction l as [|x l IH]; simpl; constructor; auto.
Qed.

(** The display cells where [doc] is unbound, the module names of the
    first cell's imports being bound. *)
Lemma display_cells_doc_unbound (w : world) :
  v_doc (globals w) = None ->
  (forall c : M unit, In c display_cells ->
      snd (c w) = inl (NameError "doc")
      /\ renders (output_of c w) = []
      /\ v_doc (globals (fst (c w))) = None)
  /\ output_of cell_token_annotations w = []
  /\ output_of cell_tokenization w = []
  /\ output_of cell_pos_table w = [Print pos_header]
  /\ output_of cell_render_dep w = []
  /\ output_of cell_entities w = []
  /\ output_of cell_entity_tags w = []
  /\ output_of cell_render_ent w = []
  /\ v_options (globals (fst (cell_render_dep w))) = Some options.
Proof.
  intros H.
  destruct (loop_cells_unbound w H) as (R1 & R2 & R5 & R6 & R7).
  pose proof (cell_pos_table_unbound w H) as R3.
  pose proof (cell_render_dep_unbound w H) as R4.
  assert (O1 : output_of cell_token_annotations w = [])
    by (apply output_of_same; rewrite R1; reflexivity).
  assert (O2 : output_of cell_tokenization w = [])
    by (apply output_of_same; rewrite R2; reflexivity).
  assert (O3 : output_of cell_pos_table w = [Print pos_header])
    by (apply output_of_app; rewrite R3; reflexivity).
  assert (O4 : output_of cell_render_dep w = [])
    by (apply output_of_same; rewrite R4; reflexivity).
  assert (O5 : output_of cell_entities w = [])
    by (apply output_of_same; rewrite R5; reflexivity).
  assert (O6 : output_of cell_entity_tags w = [])
    by (apply output_of_same; rewrite R6; reflexivity).
  assert (O7 : output_of cell_render_ent w = [])
    by (apply output_of_same; rewrite R7; reflexivity).
  split.
  - intros c I. simpl in I.
    destruct I as [<-|[<-|[<-|[<-|[<-|[<-|[<-|[]]]]]]]].
    + rewrite O1, R1. repeat split; assumption.
    + rewrite O2, R2. repeat split; assumption.
    + rewrite O3, R3. repeat split; assumption.
    + rewrite O4, R4. repeat split; assumption.
    + rewrite O5, R5. repeat split; assumption.
    + rewrite O6, R6. repeat split; assumption.
    + rewrite O7, R7. repeat split; assumption.
  - repeat (split; [assumption|]). rewrite R4. reflexivity.
Qed.

(** X1.  After a first cell that got through its imports and then failed,
    in [spacy.load] or in the call of the pipeline, in a kernel that held no
    document: every display cell stops with [NameError] for [doc], requests
    no rendering and leaves [doc] unbound.  The loop cells print nothing;
    the part-of-speech cell has by then printed its header line, and the
    dependency-rendering cell has by then assigned [options]. *)
Theorem display_cells_after_failed_first_cell (py : installation)
    (spacy_load : str -> exception + Language) (w0 : world) (e : exception) :
  import_spacy py = inr spacy_load -> import_displacy py = None ->
  v_doc (globals w0) = None ->
  (spacy_load model_name = inl e
   \/ exists f, spacy_load model_name = inr f /\ f sentence = inl e) ->
  let w := fst (first_cell py w0) in
  snd (first_cell py w0) = inl e
  /\ (forall c : M unit, In c display_cells ->
        snd (c w) = inl (NameError "doc")
        /\ renders (output_of c w) = []
        /\ v_doc (globals (fst (c w))) = None)
  /\ output_of cell_token_annotations w = []
  /\ output_of cell_tokenization w = []
  /\ output_of cell_pos_table w = [Print pos_header]
  /\ output_of cell_render_dep w = []
  /\ output_of cell_entities w = []
  /\ output_of cell_entity_tags w = []
  /\ output_of cell_render_ent w = []
  /\ v_options (globals (fst (cell_render_dep w))) = Some options.
Proof.
  intros I D H F. cbn zeta.
  rewrite (first_cell_importable py w0 I D).
  assert (R : snd (cell_load spacy_load w0) = inl e
              /\ v_doc (globals (fst (cell_load spacy_load w0))) = None).
  { destruct F as [L | (f & L & C)].
    - rewrite (cell_load_missing spacy_load w0 L). split; [reflexivity|exact H].
    - rewrite (cell_load_raises spacy_load w0 L C).
      split; [reflexivity|exact H]. }
  destruct R as [R U]. split; [exact R|].
  exact (display_cells_doc_unbound (fst (cell_load spacy_load w0)) U).
Qed.

Lemma display_cells_after_failed_first_cell_witness :
  import_spacy (installed missing_model) = inr missing_model
  /\ import_displacy (installed missing_model) = None
  /\ v_doc (globals initial_world) = None
  /\ missing_model model_name = inl (Raised (u "OSError: model not found"))
  /\ output_of cell_pos_table
       (fst (first_cell (installed missing_model) initial_world))
     = [Print pos_header]
  /\ snd (cell_render_ent
            (fst (first_cell (installed missing_model) initial_world)))
     = inl (NameError "doc").
Proof.
  split; [reflexivity|]. split; [reflexivity|]. split; [reflexivity|].
  split; [reflexivity|].
  pose proof (display_cells_after_failed_first_cell (installed missing_model)
                initial_world
                (e := Raised (u "OSError: model not found"))
                eq_refl eq_refl eq_refl (or_introl eq_refl)) as P.
  cbn zeta in P.
  split; [exact (proj1 (proj2 (proj2 (proj2 (proj2 P)))))|].
  exact (proj1 (proj1 (proj2 P) cell_render_ent
                  (or_intror (or_intror (or_intror (or_intror
                     (or_intror (or_intror (or_introl eq_refl))))))))).
Defined.

(** X2.  The entity-rendering cell relies on the [options] assigned by the
    dependency-rendering cell.  With [doc] bound and [options] unbound, a
    run that leaves the dependency-rendering cell out prints every line of
    the five loops and then stops with [NameError] for [options]: nothing is
    rendered. *)
Theorem render_ent_needs_render_dep (w : world) (d : Doc.t) :
  v_doc (globals w) = Some d -> v_options (globals w) = None ->
  snd (run_cells cells_without_render_dep w) = inl (NameError "options")
  /\ renders (output_of (run_cells cells_without_render_dep) w) = []
  /\ printed (output_of (run_cells cells_without_render_dep) w)
     = printed (shown d).
Proof.
  intros H O.
  assert (R : exists w', run_cells cells_without_render_dep w
                         = (w', inl (NameError "options"))
              /\ trace w' = trace w ++
                   map (fun t => Print (Token.text t ++ PyStr.space
                       ++ iob_type t ++ PyStr.space ++ Token.tag_ t
                       ++ PyStr.space ++ Token.pos_ t ++ PyStr.space
                       ++ Token.dep_ t ++ PyStr.space ++ Token.morph t))
                       (Doc.tokens d)
                   ++ map (fun t => Print (Token.text t)) (Doc.tokens d)
                   ++ [Print pos_header]
                   ++ map (fun t => Print (Token.text t ++ PyStr.space
                       ++ Token.lemma_ t ++ PyStr.space ++ Token.pos_ t
                       ++ PyStr.space ++ Token.tag_ t ++ PyStr.space
                       ++ Token.dep_ t ++ PyStr.space ++ Token.shape_ t
                       ++ PyStr.space ++ PyStr.of_bool (Token.is_alpha t)
                       ++ PyStr.space ++ PyStr.of_bool (Token.is_stop t)))
                       (Doc.tokens d)
                   ++ map (fun e => Print (Span.text e ++ PyStr.space
                       ++ PyStr.of_int (Span.start_char e) ++ PyStr.space
                       ++ PyStr.of_int (Span.end_char e) ++ PyStr.space
                       ++ Span.label_ e)) (Doc.ents d)
                   ++ map (fun t => Print (Token.text t ++ PyStr.space
                       ++ iob_type t)) (Doc.tokens d)).
  { unfold cells_without_render_dep, run_cells.
    unfold bind at 1. rewrite (cell_token_annotations_run w H).
    set (w1 := mk_world _ _).
    destruct (fold_set_token_frame (Doc.tokens d) (globals w))
      as (_ & _ & D1 & O1 & _).
    assert (H1 : v_doc (globals w1) = Some d)
      by (unfold w1; cbn [globals]; congruence).
    assert (P1 : v_options (globals w1) = None)
      by (unfold w1; cbn [globals]; congruence).
    unfold bind at 1. rewrite (cell_tokenization_run w1 H1).
    set (w2 := mk_world _ _).
    destruct (fold_set_token_frame (Doc.tokens d) (globals w1))
      as (_ & _ & D2 & O2 & _).
    assert (H2 : v_doc (globals w2) = Some d)
      by (unfold w2; cbn [globals]; congruence).
    assert (P2 : v_options (globals w2) = None)
      by (unfold w2; cbn [globals]; congruence).
    unfold bind at 1. rewrite (cell_pos_table_run w2 H2).
    set (w3 := mk_world _ _).
    destruct (fold_set_token_frame (Doc.tokens d) (globals w2))
      as (_ & _ & D3 & O3 & _).
    assert (H3 : v_doc (globals w3) = Some d)
      by (unfold w3; cbn [globals]; congruence).
    assert (P3 : v_options (globals w3) = None)
      by (unfold w3; cbn [globals]; congruence).
    unfold bind at 1. rewrite (cell_entities_run w3 H3).
    set (w5 := mk_world _ _).
    destruct (fold_set_ent_frame (Doc.ents d) (globals w3))
      as (_ & _ & D5 & O5 & _).
    assert (H5 : v_doc (globals w5) = Some d)
      by (unfold w5; cbn [globals]; congruence).
    assert (P5 : v_options (globals w5) = None)
      by (unfold w5; cbn [globals]; congruence).
    unfold bind at 1. rewrite (cell_entity_tags_run w5 H5).
    set (w6 := mk_world _ _).
    destruct (fold_set_token_frame (Doc.tokens d) (globals w5))
      as (_ & _ & D6 & O6 & _).
    assert (H6 : v_doc (globals w6) = Some d)
      by (unfold w6; cbn [globals]; congruence).
    assert (P6 : v_options (globals w6) = None)
      by (unfold w6; cbn [globals]; congruence).
    unfold bind at 1. rewrite (cell_render_ent_no_options w6 H6 P6).
    eexists. split; [reflexivity|].
    unfold w6, w5, w3, w2, w1. cbn [trace].
    repeat rewrite <- app_assoc. reflexivity. }
  destruct R as (w' & R & T).
  rewrite (@output_of_app (run_cells cells_without_render_dep) w _)
    by (rewrite R; exact T).
  rewrite R. split; [reflexivity|].
  unfold shown.
  repeat rewrite ?printed_app, ?renders_app, ?printed_prints, ?renders_prints.
  cbn [printed renders flat_map app]. rewrite ?app_nil_r.
  split; reflexivity.
Qed.

Lemma render_ent_needs_render_dep_witness :
  v_doc (globals (world_with_doc recorded_doc)) = Some recorded_doc
  /\ v_options (globals (world_with_doc recorded_doc)) = None
  /\ snd (run_cells cells_without_render_dep (world_with_doc recorded_doc))
     = inl (NameError "options").
Proof.
  split; [reflexivity|]. split; [reflexivity|].
  exact (proj1 (render_ent_needs_render_dep (world_with_doc recorded_doc)
                  eq_refl eq_refl)).
Defined.

(** X3.  The loop variables stay bound after the loops.  After the seven
    display cells, [token] is the last token of the document and [ent] its
    last entity span; for a document without tokens (without spans) the
    name keeps whatever binding it had, and is not bound at all if it had
    none.  [options] is the dictionary of the dependency-rendering cell,
    and [nlp] and [sentence] are as they were. *)
Theorem names_after_display (w : world) (d : Doc.t) :
  v_doc (globals w) = Some d ->
  let g' := globals (fst (run_cells display_cells w)) in
  v_token g' = last_bound (Doc.tokens d) (v_token (globals w))
  /\ v_ent g' = last_bound (Doc.ents d) (v_ent (globals w))
  /\ v_options g' = Some options
  /\ v_nlp g' = v_nlp (globals w)
  /\ v_sentence g' = v_sentence (globals w).
Proof.
  intros H.
  destruct (display_cells_world w H)
    as (w' & R & _ & N & S & _ & O & T & E).
  rewrite R. cbn [fst]. repeat split; assumption.
Qed.

Lemma names_after_display_witness :
  v_doc (globals (world_with_doc recorded_doc)) = Some recorded_doc
  /\ v_token (globals (fst (run_cells display_cells
                              (world_with_doc recorded_doc))))
     = nth_error recorded_tokens 16
  /\ v_doc (globals stale_world) = Some (Doc.mk [] [])
  /\ v_token (globals (fst (run_cells display_cells stale_world))) = None.
Proof.
  split; [reflexivity|]. split.
  - rewrite (proj1 (names_after_display (world_with_doc recorded_doc) eq_refl)).
    vm_compute. reflexivity.
  - split; [reflexivity|].
    rewrite (proj1 (names_after_display stale_world eq_refl)).
    reflexivity.
Defined.

(** X4.  Layout of a run in which the document is obtained, for a document
    of [n] tokens and [m] entity spans: the dependency rendering is
    requested after exactly [3 * n + 1] printed lines, the entity rendering
    is the last thing the run does, [m + n] lines later, and nothing is
    rendered in between; the run prints [4 * n + m + 1] lines in all. *)
Theorem run_layout (spacy_load : str -> exception + Language)
    (f : Language) (d : Doc.t) :
  spacy_load model_name = inr f -> f sentence = inr d ->
  exists before between : list event,
    run_trace spacy_load
    = before ++ [Render d (u "dep") options]
      ++ between ++ [Render d (u "ent") options]
    /\ renders before = [] /\ renders between = []
    /\ List.length (printed before) = 3 * List.length (Doc.tokens d) + 1
    /\ List.length (printed between)
       = List.length (Doc.ents d) + List.length (Doc.tokens d)
    /\ List.length (printed (run_trace spacy_load))
       = 4 * List.length (Doc.tokens d) + List.length (Doc.ents d) + 1.
Proof.
  intros L C. destruct (run_returns spacy_load L C) as [T _].
  exists (Load model_name :: Annotate sentence ::
          (map (fun t => Print (Token.text t ++ PyStr.space ++ iob_type t
                  ++ PyStr.space ++ Token.tag_ t ++ PyStr.space
                  ++ Token.pos_ t ++ PyStr.space ++ Token.dep_ t
                  ++ PyStr.space ++ Token.morph t)) (Doc.tokens d)
           ++ map (fun t => Print (Token.text t)) (Doc.tokens d)
           ++ [Print pos_header]
           ++ map (fun t => Print (Token.text t ++ PyStr.space
                  ++ Token.lemma_ t ++ PyStr.space ++ Token.pos_ t
                  ++ PyStr.space ++ Token.tag_ t ++ PyStr.space
                  ++ Token.dep_ t ++ PyStr.space ++ Token.shape_ t
                  ++ PyStr.space ++ PyStr.of_bool (Token.is_alpha t)
                  ++ PyStr.space ++ PyStr.of_bool (Token.is_stop t)))
                  (Doc.tokens d))),
         (map (fun e => Print (Span.text e ++ PyStr.space
                  ++ PyStr.of_int (Span.start_char e) ++ PyStr.space
                  ++ PyStr.of_int (Span.end_char e) ++ PyStr.space
                  ++ Span.label_ e)) (Doc.ents d)
          ++ map (fun t => Print (Token.text t ++ PyStr.space ++ iob_type t))
                 (Doc.tokens d)).
  split.
  { rewrite T. unfold shown. rewrite <- !app_comm_cons.
    do 2 f_equal. rewrite <- !app_assoc. reflexivity. }
  split.
  { change (renders (Load model_name :: Annotate sentence :: ?l))
      with (renders l).
    rewrite !renders_app, !renders_prints. reflexivity. }
  split.
  { rewrite !renders_app, !renders_prints. reflexivity. }
  assert (P1 : forall l : list event,
             printed (Load model_name :: Annotate sentence :: l) = printed l)
    by reflexivity.
  assert (P2 : printed [Print pos_header] = [pos_header]) by reflexivity.
  assert (P3 : forall s, printed [Render d s options] = []) by reflexivity.
  split.
  { rewrite P1, !printed_app, P2, !length_app, !printed_length_prints.
    simpl List.length. lia. }
  split.
  { rewrite !printed_app, !length_app, !printed_length_prints. lia. }
  rewrite T, P1. unfold shown.
  rewrite !printed_app, P2, !P3, !length_app, !printed_length_prints.
  simpl List.length. lia.
Qed.

Lemma run_layout_witness :
  recorded_load model_name = inr recorded_pipeline
  /\ recorded_pipeline sentence = inr recorded_doc
  /\ List.length (printed (run_trace recorded_load)) = 71.
Proof.
  split; [reflexivity|]. split; [reflexivity|].
  destruct (run_layout recorded_load (f := recorded_pipeline)
              (d := recorded_doc) eq_refl eq_refl)
    as (before & between & _ & _ & _ & _ & _ & N).
  exact N.
Defined.

(** X5.  The token tables agree line by line.  For every document, line
    [k] of the tokenization cell (the bare token text) is the beginning of
    line [k] of the entity-tag cell, which is in turn the beginning of line
    [k] of the token-annotation cell; it is also the beginning of row [k] of
    the part-of-speech table below its header. *)
Theorem token_tables_agree (w : world) (d : Doc.t) :
  v_doc (globals w) = Some d ->
  Forall2 prefix_of (printed (output_of cell_tokenization w))
                    (printed (output_of cell_entity_tags w))
  /\ Forall2 prefix_of (printed (output_of cell_entity_tags w))
                       (printed (output_of cell_token_annotations w))
  /\ Forall2 prefix_of (printed (output_of cell_tokenization w))
                       (tl (printed (output_of cell_pos_table w))).
Proof.
  intros H.
  pose proof (cell_token_annotations_run w H) as R1.
  pose proof (cell_tokenization_run w H) as R2.
  pose proof (cell_pos_table_run w H) as R3.
  pose proof (cell_entity_tags_run w H) as R4.
  rewrite (@output_of_app cell_token_annotations w _) by (rewrite R1; reflexivity).
  rewrite (@output_of_app cell_tokenization w _) by (rewrite R2; reflexivity).
  rewrite (@output_of_app cell_pos_table w _) by (rewrite R3; reflexivity).
  rewrite (@output_of_app cell_entity_tags w _) by (rewrite R4; reflexivity).
  cbn [printed flat_map app tl]. fold printed.
  rewrite !printed_prints.
  split; [|split]; apply Forall2_maps; intros t; unfold prefix_of.
  - eexists. reflexivity.
  - eexists. rewrite <- !app_assoc. reflexivity.
  - eexists. reflexivity.
Qed.

Lemma token_tables_agree_witness :
  v_doc (globals (world_with_doc recorded_doc)) = Some recorded_doc
  /\ Forall2 prefix_of
       (printed (output_of cell_tokenization (world_with_doc recorded_doc)))
       (printed (output_of cell_entity_tags (world_with_doc recorded_doc))).
Proof.
  split; [reflexivity|].
  exact (proj1 (token_tables_agree (world_with_doc recorded_doc) eq_refl)).
Defined.

(** X6.  Running the whole notebook does not depend on what the kernel
    holds.  From any world, with whatever stale bindings of [nlp],
    [sentence], [doc], [options], [token] and [ent], a run in which the
    document [d] is obtained adds the same events as a run in a fresh
    kernel, ends normally, and leaves [doc] bound to [d]. *)
Theorem run_all_from_any_state (spacy_load : str -> exception + Language)
    (f : Language) (d : Doc.t) (w : world) :
  spacy_load model_name = inr f -> f sentence = inr d ->
  snd (notebook spacy_load w) = inr tt
  /\ output_of (notebook spacy_load) w
     = Load model_name :: Annotate sentence :: shown d
  /\ output_of (notebook spacy_load) w = run_trace spacy_load
  /\ v_doc (globals (fst (notebook spacy_load w))) = Some d
  /\ v_nlp (globals (fst (notebook spacy_load w))) = Some f
  /\ v_sentence (globals (fst (notebook spacy_load w))) = Some sentence.
Proof.
  intros L C.
  set (w0 := mk_world (set_doc d (set_sentence sentence (set_nlp f (globals w))))
                      (trace w ++ [Load model_name; Annotate sentence])).
  destruct (display_cells_world w0 (d := d) eq_refl)
    as (w' & R & T & N & S & D & _).
  assert (E : notebook spacy_load w = (w', inr tt)).
  { unfold notebook.
    change (run_cells (cell_load spacy_load :: display_cells))
      with (cell_load spacy_load ;; run_cells display_cells).
    unfold bind at 1. rewrite (cell_load_returns spacy_load w L C).
    fold w0. exact R. }
  assert (O : output_of (notebook spacy_load) w
              = Load model_name :: Annotate sentence :: shown d).
  { apply output_of_app. rewrite E. cbn [fst]. rewrite T.
    unfold w0. cbn [trace]. rewrite <- app_assoc. reflexivity. }
  rewrite O, E. cbn [fst snd].
  split; [reflexivity|]. split; [reflexivity|].
  split; [symmetry; exact (proj1 (run_returns spacy_load L C))|].
  split; [exact D|]. split; [rewrite N | rewrite S]; reflexivity.
Qed.

Lemma run_all_from_any_state_witness :
  recorded_load model_name = inr recorded_pipeline
  /\ recorded_pipeline sentence = inr recorded_doc
  /\ output_of (notebook recorded_load) stale_world = run_trace recorded_load
  /\ v_doc (globals (fst (notebook recorded_load stale_world)))
     = Some recorded_doc.
Proof.
  split; [reflexivity|]. split; [reflexivity|].
  destruct (run_all_from_any_state recorded_load (f := recorded_pipeline)
              (d := recorded_doc) stale_world eq_refl eq_refl)
    as (_ & _ & O & D & _).
  split; [exact O | exact D].
Defined.

(** X7.  A failed reload leaves the old document in place.  When the
    loading cell fails in a kernel that already holds a document, the cell
    stops with the exception and [doc] keeps its old binding; run after
    that, the display cells show the old document in full.  When
    [spacy.load] itself fails, [nlp] and [sentence] keep their old
    bindings too. *)
Theorem failed_reload_keeps_document
    (spacy_load : str -> exception + Language) (w : world) (e : exception)
    (old : Doc.t) :
  v_doc (globals w) = Some old ->
  (spacy_load model_name = inl e
   \/ exists f, spacy_load model_name = inr f /\ f sentence = inl e) ->
  snd (cell_load spacy_load w) = inl e
  /\ v_doc (globals (fst (cell_load spacy_load w))) = Some old
  /\ output_of (run_cells display_cells) (fst (cell_load spacy_load w))
     = shown old
  /\ (spacy_load model_name = inl e ->
      globals (fst (cell_load spacy_load w)) = globals w).
Proof.
  intros H F.
  assert (D : snd (cell_load spacy_load w) = inl e
              /\ v_doc (globals (fst (cell_load spacy_load w))) = Some old
              /\ (spacy_load model_name = inl e ->
                  globals (fst (cell_load spacy_load w)) = globals w)).
  { destruct F as [L | (f & L & C)].
    - rewrite (cell_load_missing spacy_load w L). cbn [fst snd globals].
      repeat split. exact H.
    - rewrite (cell_load_raises spacy_load w L C). cbn [fst snd globals].
      split; [reflexivity|]. split; [exact H|].
      intros L'. rewrite L' in L. discriminate L. }
  destruct D as (D1 & D2 & D3).
  split; [exact D1|]. split; [exact D2|]. split; [|exact D3].
  destruct (display_cells_world (fst (cell_load spacy_load w)) D2)
    as (w' & R & T & _).
  apply output_of_app. rewrite R. exact T.
Qed.

Lemma failed_reload_keeps_document_witness :
  v_doc (globals (world_with_doc recorded_doc)) = Some recorded_doc
  /\ snd (cell_load missing_model (world_with_doc recorded_doc))
     = inl (Raised (u "OSError: model not found"))
  /\ output_of (run_cells display_cells)
       (fst (cell_load missing_model (world_with_doc recorded_doc)))
     = shown recorded_doc.
Proof.
  split; [reflexivity|].
  destruct (failed_reload_keeps_document missing_model
              (world_with_doc recorded_doc)
              (e := Raised (u "OSError: model not found"))
              eq_refl (or_introl eq_refl))
    as (R & _ & O & _).
  split; [exact R | exact O].
Defined.

(** X8.  The display cells never touch the pipeline.  In any world, bound
    names or not, raising or not, a display cell neither loads a model nor
    calls a pipeline, and it leaves [nlp] and [sentence] as they are. *)
Theorem display_cells_leave_pipeline_alone (c : M unit) (w : world) :
  In c display_cells ->
  loads (output_of c w) = []
  /\ annotate_calls (output_of c w) = []
  /\ v_nlp (globals (fst (c w))) = v_nlp (globals w)
  /\ v_sentence (globals (fst (c w))) = v_sentence (globals w).
Proof.
  intros I.
  destruct (v_doc (globals w)) as [d|] eqn:H.
  - destruct (fold_set_token_frame (Doc.tokens d) (globals w))
      as (N1 & S1 & _).
    destruct (fold_set_ent_frame (Doc.ents d) (globals w)) as (N2 & S2 & _).
    simpl in I.
    destruct I as [<-|[<-|[<-|[<-|[<-|[<-|[<-|[]]]]]]]].
    + pose proof (cell_token_annotations_run w H) as R.
      rewrite (@output_of_app cell_token_annotations w _)
        by (rewrite R; reflexivity).
      rewrite R, loads_prints, annotate_calls_prints. cbn [fst globals].
      repeat split; assumption.
    + pose proof (cell_tokenization_run w H) as R.
      rewrite (@output_of_app cell_tokenization w _)
        by (rewrite R; reflexivity).
      rewrite R, loads_prints, annotate_calls_prints. cbn [fst globals].
      repeat split; assumption.
    + pose proof (cell_pos_table_run w H) as R.
      rewrite (@output_of_app cell_pos_table w _)
        by (rewrite R; reflexivity).
      rewrite R. cbn [fst globals].
      change (loads (Print pos_header :: ?l)) with (loads l).
      change (annotate_calls (Print pos_header :: ?l)) with (annotate_calls l).
      rewrite loads_prints, annotate_calls_prints.
      repeat split; assumption.
    + pose proof (cell_render_dep_run w H) as R.
      rewrite (@output_of_app cell_render_dep w _)
        by (rewrite R; reflexivity).
      rewrite R. repeat split.
    + pose proof (cell_entities_run w H) as R.
      rewrite (@output_of_app cell_entities w _)
        by (rewrite R; reflexivity).
      rewrite R, loads_prints, annotate_calls_prints. cbn [fst globals].
      repeat split; assumption.
    + pose proof (cell_entity_tags_run w H) as R.
      rewrite (@output_of_app cell_entity_tags w _)
        by (rewrite R; reflexivity).
      rewrite R, loads_prints, annotate_calls_prints. cbn [fst globals].
      repeat split; assumption.
    + destruct (v_options (globals w)) as [o|] eqn:O.
      * pose proof (cell_render_ent_run w H O) as R.
        rewrite (@output_of_app cell_render_ent w _)
          by (rewrite R; reflexivity).
        rewrite R. repeat split.
      * pose proof (cell_render_ent_no_options w H O) as R.
        rewrite (output_of_same cell_render_ent w)
          by (rewrite R; reflexivity).
        rewrite R. repeat split.
  - destruct (loop_cells_unbound w H) as (R1 & R2 & R5 & R6 & R7).
    pose proof (cell_pos_table_unbound w H) as R3.
    pose proof (cell_render_dep_unbound w H) as R4.
    simpl in I.
    destruct I as [<-|[<-|[<-|[<-|[<-|[<-|[<-|[]]]]]]]].
    + rewrite (output_of_same cell_token_annotations w)
        by (rewrite R1; reflexivity).
      rewrite R1. repeat split.
    + rewrite (output_of_same cell_tokenization w)
        by (rewrite R2; reflexivity).
      rewrite R2. repeat split.
    + rewrite (@output_of_app cell_pos_table w _)
        by (rewrite R3; reflexivity).
      rewrite R3. repeat split.
    + rewrite (output_of_same cell_render_dep w)
        by (rewrite R4; reflexivity).
      rewrite R4. repeat split.
    + rewrite (output_of_same cell_entities w)
        by (rewrite R5; reflexivity).
      rewrite R5. repeat split.
    + rewrite (output_of_same cell_entity_tags w)
        by (rewrite R6; reflexivity).
      rewrite R6. repeat split.
    + rewrite (output_of_same cell_render_ent w)
        by (rewrite R7; reflexivity).
      rewrite R7. repeat split.
Qed.

Lemma display_cells_leave_pipeline_alone_witness :
  In cell_entities display_cells
  /\ annotate_calls (output_of cell_entities (world_with_doc recorded_doc)) = [].
Proof.
  assert (I : In cell_entities display_cells)
    by (right; right; right; right; left; reflexivity).
  split; [exact I|].
  exact (proj1 (proj2 (display_cells_leave_pipeline_alone
                         (world_with_doc recorded_doc) I))).
Defined.

(** X9.  A run consults the installation in two places only: what
    [spacy.load] answers for the model of the notebook, and what the loaded
    pipeline answers for [sentence].  Two installations that agree there,
    however they differ on other model names and other texts, give runs with
    the same trace and the same outcome. *)
Theorem run_reads_two_answers (l1 l2 : str -> exception + Language) :
  same_answers l1 l2 ->
  run_trace l1 = run_trace l2
  /\ run_result l1 = run_result l2
  /\ printed (run_trace l1) = printed (run_trace l2)
  /\ renders (run_trace l1) = renders (run_trace l2).
Proof.
  unfold same_answers. intros S.
  assert (E : run_trace l1 = run_trace l2 /\ run_result l1 = run_result l2).
  { destruct (l1 model_name) as [e1|f1] eqn:L1;
      destruct (l2 model_name) as [e2|f2] eqn:L2; try contradiction.
    - subst e2.
      destruct (run_missing l1 L1) as [T1 R1].
      destruct (run_missing l2 L2) as [T2 R2].
      rewrite T1, T2, R1, R2. split; reflexivity.
    - destruct (f1 sentence) as [e|d] eqn:C1; symmetry in S.
      + destruct (run_raises l1 L1 C1) as [T1 R1].
        destruct (run_raises l2 L2 S) as [T2 R2].
        rewrite T1, T2, R1, R2. split; reflexivity.
      + destruct (run_returns l1 L1 C1) as [T1 R1].
        destruct (run_returns l2 L2 S) as [T2 R2].
        rewrite T1, T2, R1, R2. split; reflexivity. }
  destruct E as [T R]. rewrite T, R. repeat split.
Qed.

Lemma run_reads_two_answers_witness :
  same_answers recorded_load permissive_load
  /\ run_trace recorded_load = run_trace permissive_load
  /\ run_result recorded_load = run_result permissive_load
  /\ printed (run_trace recorded_load) = printed (run_trace permissive_load)
  /\ renders (run_trace recorded_load) = renders (run_trace permissive_load).
Proof.
  assert (S : same_answers recorded_load permissive_load) by reflexivity.
  split; [exact S|]. exact (run_reads_two_answers recorded_load permissive_load S).
Defined.
